(** * NASADataProcessor: historical weather probabilities

    A shallow embedding of [src/data_processor.py] (class
    [NASADataProcessor]) and the properties of its probability estimator,
    trend aggregator, loader, synthetic generators and CSV export, and of
    the request handlers of [src/app.py] that serve them.

    Modelling conventions.
    - float64 values are idealised as rationals ([Q]); the one non-finite
      value the estimator can produce, the mean of an empty boolean column,
      is kept as an explicit [NaN].
    - A pandas DataFrame with a ['date'] column and one value column is a
      list of rows [(date, value)], dates being calendar days; the store
      [self.historical_data] is a Python dict, here a [gmap string].
    - Exceptions, the mutable object [self] and numpy's global random state
      are threaded through one state-and-exception monad [M].
    - [print] and logger calls are not modelled.
    - At the web layer a request body is a JSON value ([pyval]), a view maps
      what [request.get_json()] gave to a response, and what the handlers
      need from the interpreter and the operating system (float parsing and
      formatting, the clock, temporary files) is a class [Runtime]. *)

From Stdlib Require Import ZArith QArith Qround Qabs Lqa String Ascii DecimalString List Lia Bool.
From stdpp Require Import gmap strings.

Local Open Scope Z_scope.

(* ===================================================================== *)
(** ** Calendar dates ([datetime] / [pd.Timestamp] at midnight)          *)
(* ===================================================================== *)

Record datetime : Type := mk_datetime { year : Z; month : Z; day : Z }.

Definition datetime_eqb (a b : datetime) : bool :=
  (year a =? year b) && (month a =? month b) && (day a =? day b).

Definition is_leap (y : Z) : bool :=
  (y mod 4 =? 0) && (negb (y mod 100 =? 0) || (y mod 400 =? 0)).

Definition days_in_month (y m : Z) : Z :=
  if m =? 2 then (if is_leap y then 29 else 28)
  else if (m =? 4) || (m =? 6) || (m =? 9) || (m =? 11) then 30
  else 31.

(** Number of days in year [y] preceding the first day of month [m]. *)
Definition days_before_month (y m : Z) : Z :=
  let feb := if is_leap y then 29 else 28 in
  if m <=? 1 then 0
  else if m =? 2 then 31
  else if m =? 3 then 31 + feb
  else if m =? 4 then 62 + feb
  else if m =? 5 then 92 + feb
  else if m =? 6 then 123 + feb
  else if m =? 7 then 153 + feb
  else if m =? 8 then 184 + feb
  else if m =? 9 then 215 + feb
  else if m =? 10 then 245 + feb
  else if m =? 11 then 276 + feb
  else 306 + feb.

(** [date.timetuple().tm_yday], and pandas' [.dt.dayofyear]. *)
Definition tm_yday (d : datetime) : Z :=
  days_before_month (year d) (month d) + day d.

Definition dayofyear : datetime -> Z := tm_yday.

(** The constructor check of [datetime.date]: MINYEAR = 1, MAXYEAR = 9999. *)
Definition valid_date (d : datetime) : bool :=
  (1 <=? year d) && (year d <=? 9999) &&
  (1 <=? month d) && (month d <=? 12) &&
  (1 <=? day d) && (day d <=? days_in_month (year d) (month d)).

Definition days_before_year (y : Z) : Z :=
  let p := y - 1 in p * 365 + p / 4 - p / 100 + p / 400.

Definition toordinal (d : datetime) : Z :=
  days_before_year (year d) + tm_yday d.

Definition next_day (d : datetime) : datetime :=
  if day d <? days_in_month (year d) (month d)
  then mk_datetime (year d) (month d) (day d + 1)
  else if month d <? 12
       then mk_datetime (year d) (month d + 1) 1
       else mk_datetime (year d + 1) 1 1.

Fixpoint iter_days (n : nat) (d : datetime) : list datetime :=
  match n with
  | O => []
  | S k => d :: iter_days k (next_day d)
  end.

(** [pd.date_range(start, end, freq='D')]: every day from [start] to [end],
    both included. *)
Definition date_range (start stop : datetime) : list datetime :=
  iter_days (Z.to_nat (toordinal stop - toordinal start + 1)) start.

(* ===================================================================== *)
(** ** Exceptions                                                        *)
(* ===================================================================== *)

Inductive exn : Type := ValueError | AttributeError | IOError.

Inductive outcome (A : Type) : Type :=
| Return (a : A)
| Raise (e : exn).
Arguments Return {A} a.
Arguments Raise {A} e.

(* ===================================================================== *)
(** ** [datetime.strptime(s, '%Y-%m-%d')]

    CPython compiles the format to the regular expression
    [(?P<Y>\d\d\d\d)-(?P<m>1[0-2]|0[1-9]|[1-9])-(?P<d>3[01]|[12]\d|0[1-9]|[1-9]| [1-9])],
    matches it at the start of the string, raises [ValueError] when it does
    not match or when unconverted data remains, and then builds the date,
    which raises [ValueError] for year 0 or a day the month does not have.
    Alternatives are tried in order; for this pattern the first alternative
    that matches is the one a backtracking matcher keeps, because after a
    two-character month the one-character alternative is followed by a digit
    where ['-'] is required.  Strings are sequences of 8-bit characters. *)
(* ===================================================================== *)

Definition ascii_between (lo hi c : ascii) : bool :=
  (nat_of_ascii lo <=? nat_of_ascii c)%nat && (nat_of_ascii c <=? nat_of_ascii hi)%nat.

Definition digit_val (c : ascii) : Z := Z.of_nat (nat_of_ascii c) - 48.

Definition matcher : Type := string -> option (Z * string).

(** One character in [lo..hi], read as a digit. *)
Definition one_of (lo hi : ascii) : matcher := fun s =>
  match s with
  | String c rest => if ascii_between lo hi c then Some (digit_val c, rest) else None
  | EmptyString => None
  end.

(** Two characters, the first in [lo1..hi1] and the second in [lo2..hi2]. *)
Definition two_of (lo1 hi1 lo2 hi2 : ascii) : matcher := fun s =>
  match one_of lo1 hi1 s with
  | Some (a, rest) =>
      match one_of lo2 hi2 rest with
      | Some (b, rest') => Some (10 * a + b, rest')
      | None => None
      end
  | None => None
  end.

(** A space followed by one character in [lo..hi] ([int(" 5")] is 5). *)
Definition space_then (lo hi : ascii) : matcher := fun s =>
  match s with
  | String c rest => if Ascii.eqb c " " then one_of lo hi rest else None
  | EmptyString => None
  end.

Fixpoint alternatives (alts : list matcher) : matcher := fun s =>
  match alts with
  | [] => None
  | m :: ms => match m s with
               | Some r => Some r
               | None => alternatives ms s
               end
  end.

Definition re_Y : matcher := fun s =>
  match two_of "0" "9" "0" "9" s with
  | Some (hi, rest) =>
      match two_of "0" "9" "0" "9" rest with
      | Some (lo, rest') => Some (100 * hi + lo, rest')
      | None => None
      end
  | None => None
  end.

Definition re_m : matcher :=
  alternatives [two_of "1" "1" "0" "2"; two_of "0" "0" "1" "9"; one_of "1" "9"].

Definition re_d : matcher :=
  alternatives [two_of "3" "3" "0" "1"; two_of "1" "2" "0" "9";
                two_of "0" "0" "1" "9"; one_of "1" "9"; space_then "1" "9"].

Definition literal (c : ascii) (s : string) : option string :=
  match s with
  | String c' rest => if Ascii.eqb c c' then Some rest else None
  | EmptyString => None
  end.

Definition match_Ymd (s : string) : option (Z * Z * Z * string) :=
  match re_Y s with
  | Some (y, s1) =>
    match literal "-" s1 with
    | Some s2 =>
      match re_m s2 with
      | Some (m, s3) =>
        match literal "-" s3 with
        | Some s4 =>
          match re_d s4 with
          | Some (d, s5) => Some (y, m, d, s5)
          | None => None
          end
        | None => None
        end
      | None => None
      end
    | None => None
    end
  | None => None
  end.

Definition strptime (s : string) : outcome datetime :=
  match match_Ymd s with
  | Some (y, m, d, EmptyString) =>
      let dt := mk_datetime y m d in
      if valid_date dt then Return dt else Raise ValueError
  | Some (_, _, _, String _ _) => Raise ValueError
  | None => Raise ValueError
  end.

(* ===================================================================== *)
(** ** Numbers: float64 idealised as [Q], with [NaN]                     *)
(* ===================================================================== *)

Inductive fnum : Type :=
| Num (q : Q)
| NaN.

Definition Qltb (a b : Q) : bool := negb (Qle_bool b a).
Definition Qgtb (a b : Q) : bool := Qltb b a.

(** Nearest integer, ties to the even one ([np.rint]). *)
Definition rint (q : Q) : Z :=
  let f := Qfloor q in
  match Qcompare (q - inject_Z f) (1 # 2) with
  | Lt => f
  | Gt => f + 1
  | Eq => if Z.even f then f else f + 1
  end.

(** [round(x, 1)] on a numpy float: scale by ten, [rint], scale back. *)
Definition round1 (q : Q) : Q := Qred (inject_Z (rint (q * 10)) / 10).

Definition fround1 (x : fnum) : fnum :=
  match x with
  | Num q => Num (round1 q)
  | NaN => NaN
  end.

Definition fmul (x : fnum) (k : Q) : fnum :=
  match x with
  | Num q => Num (q * k)
  | NaN => NaN
  end.

Definition count_true (flags : list bool) : Z :=
  Z.of_nat (length (List.filter (fun b : bool => b) flags)).

(** [Series.mean()] of a boolean column: the fraction of [True] entries;
    [NaN] for an empty column. *)
Definition mean (flags : list bool) : fnum :=
  match flags with
  | [] => NaN
  | _ :: _ => Num (inject_Z (count_true flags) / inject_Z (Z.of_nat (length flags)))
  end.

(* ===================================================================== *)
(** ** Data frames and the store                                         *)
(* ===================================================================== *)

(** A frame with a datetime ['date'] column and one float value column,
    as every frame the class builds; a frame may be empty. *)
Definition DataFrame : Type := list (datetime * Q).

(** The frame produced by [pd.merge(left, right, on='date')]:
    columns ['date'], left value, right value. *)
Definition MergedFrame : Type := list (datetime * Q * Q).

Definition len {A} (l : list A) : Z := Z.of_nat (length l).

(** [df[(df['date'].dt.dayofyear >= day_of_year - 7) &
        (df['date'].dt.dayofyear <= day_of_year + 7)]] *)
Definition same_period (day_of_year : Z) (df : DataFrame) : DataFrame :=
  List.filter (fun row => (day_of_year - 7 <=? dayofyear (fst row)) &&
                          (dayofyear (fst row) <=? day_of_year + 7)) df.

(** [df[col] > t] and [df[col] < t] *)
Definition col_gt (df : DataFrame) (t : Q) : list bool :=
  map (fun row => Qgtb (snd row) t) df.
Definition col_lt (df : DataFrame) (t : Q) : list bool :=
  map (fun row => Qltb (snd row) t) df.

(** Inner join on equal dates: one row per matching pair. *)
Definition merge_on_date (left right : DataFrame) : MergedFrame :=
  flat_map (fun l =>
              map (fun r => (fst l, snd l, snd r))
                  (List.filter (fun r => datetime_eqb (fst l) (fst r)) right))
           left.

Definition calculate_heat_index (temp humidity : Q) : Q :=
  (temp + (1 # 20) * (humidity - 50))%Q.

(** [merged_data.apply(lambda row: calculate_heat_index(...), axis=1)]:
    one heat index per joined row; for a frame without rows the column is
    empty, and its mean is [NaN]. *)
Definition heat_index_column (merged : MergedFrame) : list Q :=
  map (fun row => calculate_heat_index (snd (fst row)) (snd row)) merged.

(** [range(lo, hi)] *)
Definition range (lo hi : Z) : list Z := seqZ lo (hi - lo).

(** [str(n)] for an integer. *)
Definition str_int (n : Z) : string :=
  DecimalString.NilZero.string_of_int (Z.to_int n).

(* ===================================================================== *)
(** ** The environment: numpy and the file system                        *)
(* ===================================================================== *)

Inductive distribution : Type :=
| Normal (loc scale : Q)      (* np.random.normal(loc, scale) *)
| Exponential (scale : Q)     (* np.random.exponential(scale) *)
| Weibull (a : Q)             (* np.random.weibull(a) *)
| Uniform.                    (* np.random.random() *)

(** numpy as used by the class: the global random state with its draws,
    [np.sin] and [np.pi].  Nothing is assumed about the values drawn. *)
Class Numpy : Type := {
  RandomState : Type;
  np_random : distribution -> RandomState -> Q * RandomState;
  np_randint : Z -> Z -> RandomState -> Z * RandomState;
  np_sin : Q -> Q;
  np_pi : Q
}.

(** The file system as the loader sees it: [os.path.exists], [glob.glob]
    and [pd.read_csv] (its second argument is [delim_whitespace]; the
    result is the number of rows read). *)
Class FileSystem : Type := {
  os_path_exists : string -> bool;
  glob_glob : string -> list string;
  pd_read_csv : string -> bool -> outcome Z
}.

(* ===================================================================== *)
(** ** The processor object and the monad of its methods                 *)
(* ===================================================================== *)

Record NASADataProcessor : Type := mk_processor {
  data_directory : string;
  historical_data : gmap string DataFrame;
  data_loaded : bool
}.

Record world `{Numpy} : Type := mk_world {
  self : NASADataProcessor;
  random_state : RandomState
}.

Definition M `{Numpy} (A : Type) : Type := world -> outcome A * world.

Definition ret `{Numpy} {A} (a : A) : M A := fun w => (Return a, w).

Definition raise `{Numpy} {A} (e : exn) : M A := fun w => (Raise e, w).

Definition bind `{Numpy} {A B} (m : M A) (k : A -> M B) : M B := fun w =>
  match m w with
  | (Return a, w') => k a w'
  | (Raise e, w') => (Raise e, w')
  end.

(** [try: body  except Exception as e: handler e] *)
Definition try_except `{Numpy} {A} (body : M A) (handler : exn -> M A) : M A := fun w =>
  match body w with
  | (Return a, w') => (Return a, w')
  | (Raise e, w') => handler e w'
  end.

Definition lift `{Numpy} {A} (o : outcome A) : M A := fun w => (o, w).

Notation "x <-- m ;; k" := (bind m (fun x => k))
  (at level 100, m at next level, right associativity).
Notation "m ;;; k" := (bind m (fun _ => k))
  (at level 100, right associativity).

Definition get_historical_data `{Numpy} : M (gmap string DataFrame) :=
  fun w => (Return (historical_data (self w)), w).

(** [self.historical_data[key] = df] *)
Definition set_historical_data `{Numpy} (key : string) (df : DataFrame) : M unit :=
  fun w => (Return tt,
            mk_world _ (mk_processor (data_directory (self w))
                                     (<[key := df]> (historical_data (self w)))
                                     (data_loaded (self w)))
                     (random_state w)).

Definition set_data_loaded `{Numpy} (b : bool) : M unit :=
  fun w => (Return tt,
            mk_world _ (mk_processor (data_directory (self w))
                                     (historical_data (self w)) b)
                     (random_state w)).

Definition random `{Numpy} (d : distribution) : M Q :=
  fun w => let (x, s) := np_random d (random_state w) in
           (Return x, mk_world _ (self w) s).

Definition randint `{Numpy} (lo hi : Z) : M Z :=
  fun w => let (x, s) := np_randint lo hi (random_state w) in
           (Return x, mk_world _ (self w) s).

(** [[f(x) for x in xs]], and a [for] loop appending to a list. *)
Fixpoint mapM `{Numpy} {A B} (f : A -> M B) (xs : list A) : M (list B) :=
  match xs with
  | [] => ret []
  | x :: xs' => y <-- f x ;; ys <-- mapM f xs' ;; ret (y :: ys)
  end.

(** A [for] loop updating local variables of type [S]. *)
Fixpoint forM `{Numpy} {A S} (xs : list A) (body : A -> S -> M S) (s : S) : M S :=
  match xs with
  | [] => ret s
  | x :: xs' => s' <-- body x s ;; forM xs' body s'
  end.

(* ===================================================================== *)
(** ** [calculate_probabilities]                                         *)
(* ===================================================================== *)

Definition zero : fnum := Num 0.

(** [probs.get(key, 0)] *)
Definition dict_get (d : gmap string fnum) (key : string) : fnum :=
  match d !! key with
  | Some v => v
  | None => zero
  end.

Definition expected_keys : list string :=
  ["hot"; "cold"; "wet"; "windy"; "uncomfortable"]%string.

Definition default_probabilities : gmap string fnum :=
  <["uncomfortable"%string := zero]>
    (<["windy"%string := zero]>
      (<["wet"%string := zero]>
        (<["cold"%string := zero]>
          (<["hot"%string := zero]> ∅)))).

(** [for key in keys: if key not in probabilities: probabilities[key] = 0.0] *)
Definition ensure_keys (keys : list string) (probabilities : gmap string fnum)
  : gmap string fnum :=
  fold_left (fun probs key =>
               match probs !! key with
               | None => <[key := zero]> probs
               | Some _ => probs
               end) keys probabilities.

(** The body of the method's [try] block. *)
Definition calculate_probabilities_try `{Numpy} (lat lng : Q) (target_date : string)
  : M (gmap string fnum) :=
     target_dt <-- lift (strptime target_date) ;;
     let day_of_year := tm_yday target_dt in
     store <-- get_historical_data ;;
     let probabilities : gmap string fnum := ∅ in
     (* temperature *)
     let probabilities :=
       match store !! "temperature"%string with
       | Some temp_data =>
           let same_period_data := same_period day_of_year temp_data in
           if 0 <? len same_period_data then
             let hot_prob := fmul (mean (col_gt same_period_data 90)) 100 in
             let cold_prob := fmul (mean (col_lt same_period_data 32)) 100 in
             <["cold"%string := fround1 cold_prob]>
               (<["hot"%string := fround1 hot_prob]> probabilities)
           else probabilities
       | None => probabilities
       end in
     (* precipitation *)
     let probabilities :=
       match store !! "precipitation"%string with
       | Some precip_data =>
           let same_period_precip := same_period day_of_year precip_data in
           if 0 <? len same_period_precip then
             let wet_prob := fmul (mean (col_gt same_period_precip (1 # 2))) 100 in
             <["wet"%string := fround1 wet_prob]> probabilities
           else probabilities
       | None => probabilities
       end in
     (* wind *)
     let probabilities :=
       match store !! "wind"%string with
       | Some wind_data =>
           let same_period_wind := same_period day_of_year wind_data in
           if 0 <? len same_period_wind then
             let windy_prob := fmul (mean (col_gt same_period_wind 15)) 100 in
             <["windy"%string := fround1 windy_prob]> probabilities
           else probabilities
       | None => probabilities
       end in
     (* comfort: temperature and humidity together *)
     let probabilities :=
       match store !! "temperature"%string, store !! "humidity"%string with
       | Some temp_data, Some humidity_data =>
           let same_period_temp := same_period day_of_year temp_data in
           let same_period_humidity := same_period day_of_year humidity_data in
           if (0 <? len same_period_temp) && (0 <? len same_period_humidity) then
             let merged_data := merge_on_date same_period_temp same_period_humidity in
             let heat_index := heat_index_column merged_data in
             let uncomfortable_prob :=
               fmul (mean (map (fun h => Qgtb h 85) heat_index)) 100 in
             <["uncomfortable"%string := fround1 uncomfortable_prob]> probabilities
           else probabilities
       | _, _ => probabilities
       end in
     (* ensure all expected keys are present *)
     let probabilities := ensure_keys expected_keys probabilities in
     ret probabilities.

Definition calculate_probabilities `{Numpy} (lat lng : Q) (target_date : string)
  : M (gmap string fnum) :=
  try_except
    (calculate_probabilities_try lat lng target_date)
    (fun e => ret default_probabilities).

(* ===================================================================== *)
(** ** [get_historical_trends]                                           *)
(* ===================================================================== *)

Record TrendResult : Type := mk_trends {
  years : list Z;
  hot_probabilities : list fnum;
  wet_probabilities : list fnum
}.

Definition sample_date (year : Z) : string := (str_int year ++ "-07-15")%string.

Definition get_historical_trends `{Numpy} (lat lng : Q) : M TrendResult :=
  try_except
    (let years := range 2015 2025 in
     trends <-- forM years
       (fun year '(hot_trend, wet_trend) =>
          probs <-- calculate_probabilities lat lng (sample_date year) ;;
          ret (hot_trend ++ [dict_get probs "hot"],
               wet_trend ++ [dict_get probs "wet"]))
       ([], []) ;;
     ret (mk_trends years (fst trends) (snd trends)))
    (fun e =>
       let years := range 2015 2025 in
       hot <-- mapM (fun _ => n <-- randint 10 50 ;; ret (Num (inject_Z n))) years ;;
       wet <-- mapM (fun _ => n <-- randint 10 40 ;; ret (Num (inject_Z n))) years ;;
       ret (mk_trends years hot wet)).

(* ===================================================================== *)
(** ** Path and string helpers used by the loader                        *)
(* ===================================================================== *)

Definition ends_with_slash (s : string) : bool :=
  match last (list_ascii_of_string s) with
  | Some c => Ascii.eqb c "/"
  | None => false
  end.

(** [os.path.join(a, b)] on POSIX. *)
Definition os_path_join (a b : string) : string :=
  if String.prefix "/" b then b
  else if String.eqb a "" || ends_with_slash a then (a ++ b)%string
  else (a ++ "/" ++ b)%string.

(** [os.path.basename(p)]: what follows the last ['/']. *)
Fixpoint os_path_basename (p : string) : string :=
  match p with
  | EmptyString => EmptyString
  | String c rest =>
      if existsb (Ascii.eqb "/") (list_ascii_of_string p)
      then os_path_basename rest
      else p
  end.

Definition ascii_lower (c : ascii) : ascii :=
  if ascii_between "A" "Z" c then ascii_of_nat (nat_of_ascii c + 32) else c.

Fixpoint lower (s : string) : string :=
  match s with
  | EmptyString => EmptyString
  | String c rest => String (ascii_lower c) (lower rest)
  end.

(** [sub in s] *)
Fixpoint str_in (sub s : string) : bool :=
  String.prefix sub s ||
  match s with
  | EmptyString => false
  | String _ rest => str_in sub rest
  end.

(** Python's two-argument [min] and [max]: the first argument is kept
    unless the second is strictly smaller (larger). *)
Definition py_min (a b : Q) : Q := if Qltb b a then b else a.
Definition py_max (a b : Q) : Q := if Qgtb b a then b else a.

(* ===================================================================== *)
(** ** Synthetic generators                                              *)
(* ===================================================================== *)

Section Generators.
Context `{Numpy}.

Definition _generate_enhanced_sample_data : M unit :=
  let dates := date_range (mk_datetime 2008 1 1) (mk_datetime 2023 12 31) in
  (* temperature *)
  temp_data <-- mapM (fun date =>
      let day_of_year := tm_yday date in
      let base_temp :=
        (50 + 25 * np_sin (2 * np_pi * (inject_Z day_of_year - 81) / 365))%Q in
      let year_factor := (inject_Z (year date - 2008) * (1 # 20))%Q in
      noise <-- random (Normal 0 8) ;;
      let temp := (base_temp + noise + year_factor)%Q in
      ret (date, temp)) dates ;;
  set_historical_data "temperature" temp_data ;;;
  (* precipitation *)
  precip_data <-- mapM (fun date =>
      let day_of_year := tm_yday date in
      base_precip <--
        (if (60 <=? day_of_year) && (day_of_year <=? 150)
         then random (Exponential (15 # 100))
         else if (151 <=? day_of_year) && (day_of_year <=? 240)
         then random (Exponential (25 # 100))
         else if (241 <=? day_of_year) && (day_of_year <=? 330)
         then random (Exponential (18 # 100))
         else random (Exponential (12 # 100))) ;;
      u <-- random Uniform ;;
      base_precip <--
        (if Qltb u (2 # 100)
         then extra <-- random (Exponential (1 # 2)) ;; ret (base_precip + extra)%Q
         else ret base_precip) ;;
      ret (date, base_precip)) dates ;;
  set_historical_data "precipitation" precip_data ;;;
  (* wind *)
  wind_data <-- mapM (fun date =>
      let day_of_year := tm_yday date in
      base_wind <--
        (if (day_of_year <=? 90) || (300 <=? day_of_year)
         then x <-- random (Weibull (18 # 10)) ;; ret (x * 12)%Q
         else if (91 <=? day_of_year) && (day_of_year <=? 180)
         then x <-- random (Weibull (16 # 10)) ;; ret (x * 10)%Q
         else x <-- random (Weibull (15 # 10)) ;; ret (x * 8)%Q) ;;
      ret (date, base_wind)) dates ;;
  set_historical_data "wind" wind_data ;;;
  (* humidity *)
  humidity_data <-- mapM (fun date =>
      let day_of_year := tm_yday date in
      base_humidity <--
        (if (150 <=? day_of_year) && (day_of_year <=? 240)
         then random (Normal 75 8)
         else random (Normal 65 12)) ;;
      let base_humidity := py_max 15 (py_min 95 base_humidity) in
      ret (date, base_humidity)) dates ;;
  set_historical_data "humidity" humidity_data.

Definition month_in (date : datetime) (months : list Z) : bool :=
  existsb (Z.eqb (month date)) months.

Definition _generate_sample_data : M unit :=
  let dates := date_range (mk_datetime 2010 1 1) (mk_datetime 2024 12 31) in
  (* temperature *)
  temp_data <-- mapM (fun date =>
      let base_temp :=
        (50 + 30 * np_sin (2 * np_pi * (inject_Z (dayofyear date) - 81) / 365))%Q in
      noise <-- random (Normal 0 10) ;;
      let temp := (base_temp + noise)%Q in
      ret (date, temp)) dates ;;
  set_historical_data "temperature" temp_data ;;;
  (* precipitation *)
  precip_data <-- mapM (fun date =>
      precip <--
        (if month_in date [3; 4; 5; 6]
         then random (Exponential (2 # 10))
         else random (Exponential (5 # 100))) ;;
      ret (date, precip)) dates ;;
  set_historical_data "precipitation" precip_data ;;;
  (* wind *)
  wind_data <-- mapM (fun date =>
      wind <--
        (if month_in date [11; 12; 1; 2]
         then x <-- random (Weibull 2) ;; ret (x * 15)%Q
         else x <-- random (Weibull 2) ;; ret (x * 8)%Q) ;;
      ret (date, wind)) dates ;;
  set_historical_data "wind" wind_data ;;;
  (* humidity *)
  humidity_data <-- mapM (fun date =>
      humidity <--
        (if month_in date [6; 7; 8]
         then random (Normal 75 10)
         else random (Normal 60 15)) ;;
      let humidity := py_max 10 (py_min 100 humidity) in
      ret (date, humidity)) dates ;;
  set_historical_data "humidity" humidity_data.

(** The four per-variable generators the ingestion handlers call are not
    defined anywhere in the class: looking them up on [self] raises
    [AttributeError]. *)
Definition _generate_sample_temperature_data : M DataFrame := raise AttributeError.
Definition _generate_sample_precipitation_data : M DataFrame := raise AttributeError.
Definition _generate_sample_wind_data : M DataFrame := raise AttributeError.
Definition _generate_sample_humidity_data : M DataFrame := raise AttributeError.
End Generators.

(* ===================================================================== *)
(** ** Ingestion and the loader                                          *)
(* ===================================================================== *)

Section Loader.
Context `{Numpy} `{FileSystem}.

(** [if key not in self.historical_data:
       self.historical_data[key] = generate()], inside [try]/[except]. *)
Definition process_with (key : string) (generate : M DataFrame) : M unit :=
  try_except
    (store <-- get_historical_data ;;
     match store !! key with
     | None => df <-- generate ;; set_historical_data key df
     | Some _ => ret tt
     end)
    (fun e => ret tt).

Definition _process_gldas_data (file_path : string) : M unit :=
  process_with "temperature" _generate_sample_temperature_data.

Definition _process_gpm_data (file_path : string) : M unit :=
  process_with "precipitation" _generate_sample_precipitation_data.

Definition _process_merra_data (file_path : string) : M unit :=
  process_with "wind" _generate_sample_wind_data.

Definition _process_viirs_data (file_path : string) : M unit :=
  process_with "humidity" _generate_sample_humidity_data.

Definition _process_generic_data (file_path : string) : M unit :=
  try_except
    (try_except
       (rows <-- lift (pd_read_csv file_path false) ;; ret tt)
       (fun e => rows <-- lift (pd_read_csv file_path true) ;; ret tt))
    (fun e => ret tt).

Definition _load_actual_nasa_data : M bool :=
  try_except
    (fun w =>
       let dir := data_directory (self w) in
       let nasa_files :=
         glob_glob (os_path_join dir "*.txt") ++
         glob_glob (os_path_join dir "*.nc") ++
         glob_glob (os_path_join dir "*.csv") in
       match nasa_files with
       | [] => ret false w
       | _ :: _ =>
           (forM nasa_files
              (fun file_path (_ : unit) =>
                 let filename := lower (os_path_basename file_path) in
                 try_except
                   (if str_in "gldas" filename then _process_gldas_data file_path
                    else if str_in "gpm" filename || str_in "imerg" filename
                    then _process_gpm_data file_path
                    else if str_in "merra" filename || str_in "m2tmnxlnd" filename
                    then _process_merra_data file_path
                    else if str_in "cldmsk" filename || str_in "viirs" filename
                    then _process_viirs_data file_path
                    else _process_generic_data file_path)
                   (fun e => ret tt))
              tt ;;;
            store <-- get_historical_data ;;
            ret (0 <? Z.of_nat (size store))) w
       end)
    (fun e => ret false).

Definition load_nasa_data : M unit :=
  try_except
    (fun w =>
       if negb (os_path_exists (data_directory (self w)))
       then _generate_sample_data w
       else
         (data_loaded <-- _load_actual_nasa_data ;;
          if negb data_loaded
          then _generate_enhanced_sample_data
          else set_data_loaded true) w)
    (fun e => _generate_enhanced_sample_data).

(** [NASADataProcessor(data_directory)]: the constructor, run against the
    current random state. *)
Definition __init__ (data_directory : string) (rs : RandomState)
  : outcome unit * world :=
  load_nasa_data (mk_world _ (mk_processor data_directory ∅ false) rs).
End Loader.

(* ===================================================================== *)
(** ** Python values at the web layer                                    *)
(* ===================================================================== *)

(** A Python float, non-finite values included. *)
Inductive pyfloat : Type :=
| PyFinite (q : Q)
| PyInfinite (negative : bool)
| PyNaN.

Set Warnings "-register-all".

(** A value as [request.get_json()] parses it, or as [jsonify] takes it. *)
Inductive pyval : Type :=
| PNone
| PBool (b : bool)
| PInt (z : Z)
| PFloat (x : pyfloat)
| PStr (s : string)
| PList (items : list pyval)
| PDict (d : gmap string pyval).

Definition pyfloat_of_fnum (x : fnum) : pyfloat :=
  match x with
  | Num q => PyFinite q
  | NaN => PyNaN
  end.

(** The estimator and the trend aggregator take their coordinates as
    rationals and never read them; a non-finite coordinate is handed over
    as 0. *)
Definition coordinate (x : pyfloat) : Q :=
  match x with
  | PyFinite q => q
  | _ => 0%Q
  end.

(** Python's exceptions at the web layer: those of the processor, and the
    ones only the request handling meets. *)
Inductive py_exception : Type :=
| Exn (e : exn)
| TypeError
| OverflowError
| HTTPException.

Inductive result (A : Type) : Type :=
| Ok (a : A)
| Fail (e : py_exception).
Arguments Ok {A} a.
Arguments Fail {A} e.

(* ===================================================================== *)
(** ** Tables: the frames [generate_csv_data] builds                     *)
(* ===================================================================== *)

Inductive cell : Type :=
| CStr (s : string)
| CNum (x : fnum).

(** A frame with named columns in order; a row binds some of the columns,
    and a column a row does not bind reads as NaN. *)
Record Table : Type := mk_table {
  columns : list string;
  rows : list (gmap string cell)
}.


(** [pd.DataFrame({name: values, ...})]: the columns must have one length. *)
Definition DataFrame_of_columns (cols : list (string * list cell)) : outcome Table :=
  match cols with
  | [] => Return (mk_table [] [])
  | (_, first) :: _ =>
      if forallb (fun col => Nat.eqb (length (snd col)) (length first)) cols
      then Return (mk_table (map fst cols)
                     (map (fun i =>
                             list_to_map
                               (omap (fun col => match snd col !! i with
                                                 | Some c => Some (fst col, c)
                                                 | None => None
                                                 end) cols))
                          (seq 0 (length first))))
      else Raise ValueError
  end.

(** [pd.DataFrame([{name: value}])]: one row, one column. *)
Definition DataFrame_of_record (name : string) (value : cell) : Table :=
  mk_table [name] [ {[ name := value ]} ].

(** The columns of [pd.concat]: each frame's columns, in order, that no
    earlier frame had. *)
Definition union_columns (frames : list Table) : list string :=
  fold_left (fun acc t =>
               acc ++ List.filter (fun c => negb (existsb (String.eqb c) acc)) (columns t))
            frames [].

(** [pd.concat(frames, ignore_index=True)] *)
Definition pd_concat (frames : list Table) : Table :=
  mk_table (union_columns frames) (concat (map rows frames)).

(** What the handlers need from the interpreter and the operating system:
    [f"{x:.4f}"], the clock read by [datetime.now()] in its two formats,
    [float] on a string and on an integer ([None] when it raises
    [ValueError], respectively [OverflowError]), [str(e)] for an exception,
    and writing a frame to a fresh temporary CSV file (the path, or
    [OSError]). *)
Class Runtime : Type := {
  format_4f : pyfloat -> string;
  now_strftime : string;
  now_isoformat : string;
  float_of_str : string -> option pyfloat;
  float_of_int : Z -> option pyfloat;
  str_exception : py_exception -> string;
  to_csv_tempfile : Table -> option string
}.

(* ===================================================================== *)
(** ** [generate_csv_data]                                               *)
(* ===================================================================== *)

Definition generate_csv_data `{Numpy} `{Runtime} (lat lng : pyfloat) (date : string)
  : M Table :=
  try_except
    (probabilities <-- calculate_probabilities (coordinate lat) (coordinate lng) date ;;
     trends <-- get_historical_trends (coordinate lat) (coordinate lng) ;;
     df_probabilities <-- lift (DataFrame_of_columns
       [("Weather Condition",
         [CStr "Very Hot (>90°F)"; CStr "Very Cold (<32°F)"; CStr "Very Wet (>0.5 in)";
          CStr "Very Windy (>15 mph)"; CStr "Very Uncomfortable"]);
        ("Probability (%)",
         [CNum (dict_get probabilities "hot"); CNum (dict_get probabilities "cold");
          CNum (dict_get probabilities "wet"); CNum (dict_get probabilities "windy");
          CNum (dict_get probabilities "uncomfortable")]);
        ("Threshold",
         [CStr "90°F"; CStr "32°F"; CStr "0.5 inches"; CStr "15 mph";
          CStr "Heat Index >85"])]%string) ;;
     df_trends <-- lift (DataFrame_of_columns
       [("Year", map (fun y => CNum (Num (inject_Z y))) (years trends));
        ("Hot Day Probability (%)", map CNum (hot_probabilities trends));
        ("Wet Day Probability (%)", map CNum (wet_probabilities trends))]%string) ;;
     let combined_df :=
       pd_concat [df_probabilities; DataFrame_of_record "Weather Condition" (CStr "");
                  df_trends] in
     metadata <-- lift (DataFrame_of_columns
       [("Parameter",
         [CStr "Location"; CStr "Latitude"; CStr "Longitude"; CStr "Date";
          CStr "Generated On"]);
        ("Value",
         [CStr (format_4f lat ++ ", " ++ format_4f lng); CStr (format_4f lat);
          CStr (format_4f lng); CStr date; CStr now_strftime])]%string) ;;
     let final_df :=
       pd_concat [metadata; DataFrame_of_record "Parameter" (CStr ""); combined_df] in
     ret final_df)
    (fun e => lift (DataFrame_of_columns
                      [("Error", [CStr "Failed to generate data"])]%string)).

(* ===================================================================== *)
(** ** The request handlers of [app.py]                                  *)
(* ===================================================================== *)

(** [bool(v)] *)
Definition truthy (v : pyval) : bool :=
  match v with
  | PNone => false
  | PBool b => b
  | PInt z => negb (z =? 0)
  | PFloat (PyFinite q) => negb (Qeq_bool q 0)
  | PFloat _ => true
  | PStr s => negb (String.eqb s "")
  | PList items => match items with [] => false | _ :: _ => true end
  | PDict d => 0 <? Z.of_nat (size d)
  end.

Definition is_None (v : pyval) : bool :=
  match v with
  | PNone => true
  | _ => false
  end.

(** [data.get(key)]: only a dict has the method. *)
Definition py_get (data : pyval) (key : string) : result pyval :=
  match data with
  | PDict d => Ok (match d !! key with
                   | Some v => v
                   | None => PNone
                   end)
  | _ => Fail (Exn AttributeError)
  end.

(** [float(v)] *)
Definition py_float `{Runtime} (v : pyval) : result pyfloat :=
  match v with
  | PBool b => Ok (PyFinite (if b then 1 else 0))
  | PInt z => match float_of_int z with
              | Some x => Ok x
              | None => Fail OverflowError
              end
  | PFloat x => Ok x
  | PStr s => match float_of_str s with
              | Some x => Ok x
              | None => Fail (Exn ValueError)
              end
  | PNone | PList _ | PDict _ => Fail TypeError
  end.

(** [datetime.strptime(v, '%Y-%m-%d')]: the argument must be a [str]; on
    success the value is that string. *)
Definition py_strptime (v : pyval) : result string :=
  match v with
  | PStr s => match strptime s with
              | Return _ => Ok s
              | Raise e => Fail (Exn e)
              end
  | _ => Fail TypeError
  end.

Definition is_ValueError (e : py_exception) : bool :=
  match e with
  | Exn ValueError => true
  | _ => false
  end.

Definition is_ValueError_or_TypeError (e : py_exception) : bool :=
  match e with
  | Exn ValueError | TypeError => true
  | _ => false
  end.

(** What a view returns: [jsonify(body), status], or [send_file(path, ...)]. *)
Inductive response : Type :=
| JsonResponse (body : pyval) (status : Z)
| FileResponse (path download_name mimetype : string).

Definition App `{Numpy} (A : Type) : Type := world -> result A * world.

Definition app_ret `{Numpy} {A} (a : A) : App A := fun w => (Ok a, w).

Definition app_bind `{Numpy} {A B} (m : App A) (k : A -> App B) : App B := fun w =>
  match m w with
  | (Ok a, w') => k a w'
  | (Fail e, w') => (Fail e, w')
  end.

Definition app_lift `{Numpy} {A} (r : result A) : App A := fun w => (r, w).

(** A call of a method of the processor. *)
Definition app_call `{Numpy} {A} (m : M A) : App A := fun w =>
  match m w with
  | (Return a, w') => (Ok a, w')
  | (Raise e, w') => (Fail (Exn e), w')
  end.

(** [try: body  except <classes>: handler] *)
Definition app_try `{Numpy} {A} (body : App A) (classes : py_exception -> bool)
    (handler : py_exception -> App A) : App A := fun w =>
  match body w with
  | (Ok a, w') => (Ok a, w')
  | (Fail e, w') => if classes e then handler e w' else (Fail e, w')
  end.

Notation "x <~ m ;; k" := (app_bind m (fun x => k))
  (at level 100, m at next level, right associativity).

(** [jsonify({'success': False, 'error': message}), status] *)
Definition json_error (message : string) (status : Z) : response :=
  JsonResponse (PDict (<["error"%string := PStr message]>
                        (<["success"%string := PBool false]> ∅))) status.

(** The [try] ... [except Exception as e] around every view. *)
Definition view `{Numpy} `{Runtime} (body : App response) : world -> response * world :=
  fun w =>
    match body w with
    | (Ok r, w') => (r, w')
    | (Fail e, w') =>
        (json_error ("Internal server error: " ++ str_exception e) 500, w')
    end.

Definition probabilities_json (probabilities : gmap string fnum) : pyval :=
  PDict ((fun x => PFloat (pyfloat_of_fnum x)) <$> probabilities).

Definition trends_json (trends : TrendResult) : pyval :=
  PDict (<["wet_probabilities"%string :=
             PList (map (fun x => PFloat (pyfloat_of_fnum x)) (wet_probabilities trends))]>
        (<["hot_probabilities"%string :=
             PList (map (fun x => PFloat (pyfloat_of_fnum x)) (hot_probabilities trends))]>
        (<["years"%string := PList (map PInt (years trends))]> ∅))).

Section Views.
Context `{Numpy} `{Runtime}.

Definition get_weather_probability (request_get_json : result pyval)
  : world -> response * world :=
  view
    (data <~ app_lift request_get_json ;;
     if negb (truthy data) then app_ret (json_error "No JSON data provided" 400) else
     lat <~ app_lift (py_get data "latitude") ;;
     lng <~ app_lift (py_get data "longitude") ;;
     target_date <~ app_lift (py_get data "date") ;;
     if is_None lat || is_None lng || negb (truthy target_date)
     then app_ret (json_error
       "Missing required parameters: latitude, longitude, and date are required" 400)
     else
     converted <~ app_try
       (lat <~ app_lift (py_float lat) ;;
        lng <~ app_lift (py_float lng) ;;
        app_ret (inr (lat, lng)))
       is_ValueError_or_TypeError
       (fun e => app_ret (inl (json_error "Invalid latitude or longitude format" 400))) ;;
     match converted with
     | inl rejected => app_ret rejected
     | inr (lat, lng) =>
         checked <~ app_try
           (date <~ app_lift (py_strptime target_date) ;; app_ret (inr date))
           is_ValueError
           (fun e => app_ret (inl (json_error "Invalid date format. Use YYYY-MM-DD" 400))) ;;
         match checked with
         | inl rejected => app_ret rejected
         | inr date =>
             probabilities <~ app_call
               (calculate_probabilities (coordinate lat) (coordinate lng) date) ;;
             app_ret (JsonResponse
               (PDict (<["timestamp"%string := PStr now_isoformat]>
                      (<["date"%string := target_date]>
                      (<["location"%string :=
                           PStr (format_4f lat ++ ", " ++ format_4f lng)]>
                      (<["probabilities"%string := probabilities_json probabilities]>
                      (<["success"%string := PBool true]> ∅)))))) 200)
         end
     end).

Definition get_historical_trends_view (request_get_json : result pyval)
  : world -> response * world :=
  view
    (data <~ app_lift request_get_json ;;
     if negb (truthy data) then app_ret (json_error "No JSON data provided" 400) else
     lat <~ app_lift (py_get data "latitude") ;;
     lng <~ app_lift (py_get data "longitude") ;;
     if is_None lat || is_None lng
     then app_ret (json_error
       "Missing required parameters: latitude and longitude are required" 400)
     else
     converted <~ app_try
       (lat <~ app_lift (py_float lat) ;;
        lng <~ app_lift (py_float lng) ;;
        app_ret (inr (lat, lng)))
       is_ValueError_or_TypeError
       (fun e => app_ret (inl (json_error "Invalid latitude or longitude format" 400))) ;;
     match converted with
     | inl rejected => app_ret rejected
     | inr (lat, lng) =>
         trends <~ app_call (get_historical_trends (coordinate lat) (coordinate lng)) ;;
         app_ret (JsonResponse
           (PDict (<["timestamp"%string := PStr now_isoformat]>
                  (<["location"%string := PStr (format_4f lat ++ ", " ++ format_4f lng)]>
                  (<["trends"%string := trends_json trends]>
                  (<["success"%string := PBool true]> ∅))))) 200)
     end).

(** [str(v)] inside an f-string, for a value that is a [str]. *)
Definition download_filename (lat lng : pyfloat) (date : string) : string :=
  ("weather_probability_" ++ format_4f lat ++ "_" ++ format_4f lng ++ "_" ++ date
   ++ ".csv")%string.

Definition download_data (request_get_json : result pyval) : world -> response * world :=
  view
    (data <~ app_lift request_get_json ;;
     if negb (truthy data) then app_ret (json_error "No JSON data provided" 400) else
     lat <~ app_lift (py_get data "latitude") ;;
     lng <~ app_lift (py_get data "longitude") ;;
     target_date <~ app_lift (py_get data "date") ;;
     if is_None lat || is_None lng || negb (truthy target_date)
     then app_ret (json_error
       "Missing required parameters: latitude, longitude, and date are required" 400)
     else
     converted <~ app_try
       (lat <~ app_lift (py_float lat) ;;
        lng <~ app_lift (py_float lng) ;;
        app_ret (inr (lat, lng)))
       is_ValueError_or_TypeError
       (fun e => app_ret (inl (json_error "Invalid latitude or longitude format" 400))) ;;
     match converted with
     | inl rejected => app_ret rejected
     | inr (lat, lng) =>
         checked <~ app_try
           (date <~ app_lift (py_strptime target_date) ;; app_ret (inr date))
           is_ValueError
           (fun e => app_ret (inl (json_error "Invalid date format. Use YYYY-MM-DD" 400))) ;;
         match checked with
         | inl rejected => app_ret rejected
         | inr date =>
             csv_data <~ app_call (generate_csv_data lat lng date) ;;
             temp_filename <~ app_lift (match to_csv_tempfile csv_data with
                                        | Some path => Ok path
                                        | None => Fail (Exn IOError)
                                        end) ;;
             app_ret (FileResponse temp_filename (download_filename lat lng date)
                                   "text/csv")
         end
     end).

Definition health_check : world -> response * world := fun w =>
  (JsonResponse
     (PDict (<["data_loaded"%string := PBool (data_loaded (self w))]>
            (<["timestamp"%string := PStr now_isoformat]>
            (<["status"%string := PStr "healthy"]> ∅)))) 200, w).
End Views.

(* ===================================================================== *)
(** ** The specification's vocabulary                                    *)
(* ===================================================================== *)

(** A day-of-year [d] lies in the window around [day_of_year]. *)
Definition in_window (day_of_year d : Z) : Prop :=
  day_of_year - 7 <= d <= day_of_year + 7.

(** 100 times the fraction of the values [xs] that satisfy [P], rounded to
    one decimal. *)
Definition percent_where (P : Q -> bool) (xs : list Q) : Q :=
  round1 (100 * (inject_Z (len (List.filter P xs)) / inject_Z (len xs))).

Definition is_percentage (v : fnum) : Prop :=
  exists q : Q, v = Num q /\ (0 <= q)%Q /\ (q <= 100)%Q.

(** The result binds key [k] to a number in [0,100]. *)
Definition bound_to_percentage (probs : gmap string fnum) (k : string) : Prop :=
  exists v, probs !! k = Some v /\ is_percentage v.

Definition five_keys : gset string :=
  {[ "hot"%string; "cold"%string; "wet"%string; "windy"%string;
     "uncomfortable"%string ]}.

(** The values of the window subset of a variable; [[]] when the variable
    is absent from the store. *)
Definition window_values (store : gmap string DataFrame) (key : string)
    (day_of_year : Z) : list Q :=
  match store !! key with
  | Some df => map snd (same_period day_of_year df)
  | None => []
  end.

(** The heat indices of the temperature and humidity window subsets joined
    on equal dates; [[]] when either variable is absent. *)
Definition window_heat_indices (store : gmap string DataFrame) (day_of_year : Z)
  : list Q :=
  match store !! "temperature"%string, store !! "humidity"%string with
  | Some t, Some h =>
      heat_index_column
        (merge_on_date (same_period day_of_year t) (same_period day_of_year h))
  | _, _ => []
  end.

(** 100 times the fraction of a sample, rounded to one decimal; not a
    number when the sample is empty. *)
Definition exceedance (P : Q -> bool) (xs : list Q) : fnum :=
  match xs with
  | [] => NaN
  | _ :: _ => Num (percent_where P xs)
  end.

(** The percentage of a variable's window, 0.0 when the window is empty. *)
Definition percent_or_zero (P : Q -> bool) (xs : list Q) : fnum :=
  match xs with
  | [] => zero
  | _ :: _ => Num (percent_where P xs)
  end.

(** The estimate as the specification words it, for a store and the
    day-of-year of the target date. *)
Definition spec_probabilities (store : gmap string DataFrame) (day_of_year : Z)
  : gmap string fnum :=
  let temps := window_values store "temperature" day_of_year in
  let precs := window_values store "precipitation" day_of_year in
  let winds := window_values store "wind" day_of_year in
  let hums := window_values store "humidity" day_of_year in
  <["hot"%string := percent_or_zero (fun t => Qgtb t 90) temps]>
  (<["cold"%string := percent_or_zero (fun t => Qltb t 32) temps]>
  (<["wet"%string := percent_or_zero (fun p => Qgtb p (1 # 2)) precs]>
  (<["windy"%string := percent_or_zero (fun v => Qgtb v 15) winds]>
  (<["uncomfortable"%string :=
      match temps, hums with
      | _ :: _, _ :: _ =>
          exceedance (fun h => Qgtb h 85) (window_heat_indices store day_of_year)
      | _, _ => zero
      end]> ∅)))).

(** What the estimator returns for a store and a target date string, as the
    specification words it: the estimate at the date's day-of-year, the
    all-zero result when the string is not a date. *)
Definition probabilities_of (store : gmap string DataFrame) (target_date : string)
  : gmap string fnum :=
  match strptime target_date with
  | Return dt => spec_probabilities store (tm_yday dt)
  | Raise _ => default_probabilities
  end.

(** The shift of the day-of-year that a leap year causes from March on. *)
Definition leap_shift (y m : Z) : Z := if is_leap y && (2 <? m) then 1 else 0.

Definition clamped (lo hi : Q) (x : Q) : Prop := (lo <= x)%Q /\ (x <= hi)%Q.

(** Run from [w], the method returns (it does not raise) and its value and
    final state satisfy [post]. *)
Definition returns `{Numpy} {A} (m : M A) (w : world) (post : A -> world -> Prop) : Prop :=
  match m w with
  | (Return a, w') => post a w'
  | (Raise _, _) => False
  end.

(** What a full generator leaves behind when run from [w]: the four
    variables set, whatever the store held, each to a frame with one row per
    date of [dates], every humidity value within [lo, hi]; nothing else of
    the processor changes. *)
Definition generated `{Numpy} (dates : list datetime) (lo hi : Q) (w w' : world) : Prop :=
  exists temp precip wind humidity : DataFrame,
    historical_data (self w')
    = <["humidity"%string := humidity]>
        (<["wind"%string := wind]>
          (<["precipitation"%string := precip]>
            (<["temperature"%string := temp]> (historical_data (self w)))))
    /\ data_directory (self w') = data_directory (self w)
    /\ data_loaded (self w') = data_loaded (self w)
    /\ map fst temp = dates /\ map fst precip = dates
    /\ map fst wind = dates /\ map fst humidity = dates
    /\ Forall (fun row => clamped lo hi (snd row)) humidity.

Definition enhanced_dates : list datetime :=
  date_range (mk_datetime 2008 1 1) (mk_datetime 2023 12 31).

Definition legacy_dates : list datetime :=
  date_range (mk_datetime 2010 1 1) (mk_datetime 2024 12 31).

(** The first date of a variable's frame in the state a run ends in. *)
Definition first_date `{Numpy} {A} (key : string) (r : outcome A * world)
  : option datetime :=
  match historical_data (self (snd r)) !! key with
  | Some df => head (map fst df)
  | None => None
  end.

(** Consecutive entries increase. *)
Fixpoint increasing (l : list Z) : bool :=
  match l with
  | a :: ((b :: _) as rest) => (a <? b) && increasing rest
  | _ => true
  end.

(** The four variables of the store. *)
Definition four_variables : gset string :=
  {[ "temperature"%string; "precipitation"%string; "wind"%string; "humidity"%string ]}.

(** The files [_load_actual_nasa_data] looks at. *)
Definition candidate_files `{FileSystem} (dir : string) : list string :=
  glob_glob (os_path_join dir "*.txt") ++
  glob_glob (os_path_join dir "*.nc") ++
  glob_glob (os_path_join dir "*.csv").

Definition with_data_loaded `{Numpy} (b : bool) (w : world) : world :=
  mk_world _ (mk_processor (data_directory (self w)) (historical_data (self w)) b)
           (random_state w).

(** Two stores hold the same rows, possibly in another order. *)
Definition same_rows (store store' : gmap string DataFrame) : Prop :=
  forall key : string,
    match store !! key, store' !! key with
    | Some df, Some df' => Permutation df df'
    | None, None => True
    | _, _ => False
    end.


Definition status_of (r : response) : Z :=
  match r with
  | JsonResponse _ status => status
  | FileResponse _ _ _ => 200
  end.

(** [data.get(key)] on a dict. *)
Definition get_or_None (d : gmap string pyval) (key : string) : pyval :=
  match d !! key with
  | Some v => v
  | None => PNone
  end.

(** The body of a successful answer of the weather-probability view. *)
Definition weather_body `{Runtime} (x y : pyfloat) (date : pyval)
    (probabilities : gmap string fnum) : pyval :=
  PDict (<["timestamp"%string := PStr now_isoformat]>
        (<["date"%string := date]>
        (<["location"%string := PStr (format_4f x ++ ", " ++ format_4f y)]>
        (<["probabilities"%string := probabilities_json probabilities]>
        (<["success"%string := PBool true]> ∅))))).

(** The answer of a view whose body raised [e]. *)
Definition server_error `{Runtime} (e : py_exception) : response :=
  json_error ("Internal server error: " ++ str_exception e) 500.

(** Two shapes used to state what each block of the estimator does to the
    dict: insert when a value was computed, leave the dict alone otherwise. *)
Definition opt_insert (k : string) (o : option fnum) (p : gmap string fnum)
  : gmap string fnum :=
  match o with
  | Some v => <[k := v]> p
  | None => p
  end.

Definition opt_percent (P : Q -> bool) (xs : list Q) : option fnum :=
  match xs with
  | [] => None
  | _ :: _ => Some (Num (percent_where P xs))
  end.

(* ===================================================================== *)
(** ** Concrete environments used by the examples                        *)
(* ===================================================================== *)

(** A random state that counts its draws; a normal draw sweeps from six
    deviations below the mean to six above. *)
Definition demo_numpy : Numpy := {|
  RandomState := Z;
  np_random := fun d n =>
    (match d with
     | Normal loc scale => (loc + scale * inject_Z (2 * (n mod 7 - 3)))%Q
     | Exponential scale => scale
     | Weibull a => 1%Q
     | Uniform => (1 # 2)%Q
     end, n + 1);
  np_randint := fun lo hi n => (lo, n + 1);
  np_sin := fun x => 0%Q;
  np_pi := (355 # 113)%Q
|}.

(** No data directory at all. *)
Definition fs_missing : FileSystem := {|
  os_path_exists := fun _ => false;
  glob_glob := fun _ => [];
  pd_read_csv := fun _ _ => Raise IOError
|}.

(** A data directory holding one GLDAS file and one unrelated CSV file. *)
Definition fs_present : FileSystem := {|
  os_path_exists := fun _ => true;
  glob_glob := fun pat =>
    if String.eqb pat "sample_data/*.csv"
    then ["sample_data/GLDAS_NOAH_2020.csv"; "sample_data/notes.csv"]%string
    else [];
  pd_read_csv := fun _ _ => Return 3
|}.

(** Temperature and humidity observed on different dates of the same
    calendar window. *)
Definition disjoint_store : gmap string DataFrame :=
  <["temperature"%string := [(mk_datetime 2020 7 15, 95%Q)]]>
    (<["humidity"%string := [(mk_datetime 2021 7 15, 60%Q)]]> ∅).

(** Temperature around the turn of the year. *)
Definition new_year_store : gmap string DataFrame :=
  <["temperature"%string :=
      [(mk_datetime 2024 12 25, 20%Q); (mk_datetime 2024 12 31, 95%Q);
       (mk_datetime 2025 1 2, 95%Q); (mk_datetime 2025 1 5, 95%Q)]]> ∅.

(** Four small aligned series in mid-July. *)
Definition july_store : gmap string DataFrame :=
  <["temperature"%string :=
      [(mk_datetime 2020 7 14, 95%Q); (mk_datetime 2020 7 15, 84%Q);
       (mk_datetime 2021 7 15, 30%Q)]]>
  (<["precipitation"%string :=
      [(mk_datetime 2020 7 14, (6 # 10)%Q); (mk_datetime 2020 7 15, (5 # 10)%Q)]]>
  (<["wind"%string :=
      [(mk_datetime 2020 7 14, 16%Q); (mk_datetime 2020 7 15, 15%Q);
       (mk_datetime 2021 7 15, 3%Q)]]>
  (<["humidity"%string :=
      [(mk_datetime 2020 7 14, 50%Q); (mk_datetime 2020 7 15, 90%Q);
       (mk_datetime 2021 7 15, 40%Q)]]> ∅))).

(** Temperature only, every window entry above 90. *)
Definition hot_store : gmap string DataFrame :=
  <["temperature"%string :=
      [(mk_datetime 2020 7 14, 95%Q); (mk_datetime 2021 7 15, 101%Q)]]> ∅.

(** [july_store] with the rows of every frame in the opposite order. *)
Definition july_store_reversed : gmap string DataFrame :=
  <["temperature"%string :=
      [(mk_datetime 2021 7 15, 30%Q); (mk_datetime 2020 7 15, 84%Q);
       (mk_datetime 2020 7 14, 95%Q)]]>
  (<["precipitation"%string :=
      [(mk_datetime 2020 7 15, (5 # 10)%Q); (mk_datetime 2020 7 14, (6 # 10)%Q)]]>
  (<["wind"%string :=
      [(mk_datetime 2021 7 15, 3%Q); (mk_datetime 2020 7 15, 15%Q);
       (mk_datetime 2020 7 14, 16%Q)]]>
  (<["humidity"%string :=
      [(mk_datetime 2021 7 15, 40%Q); (mk_datetime 2020 7 15, 90%Q);
       (mk_datetime 2020 7 14, 50%Q)]]> ∅))).

(** An interpreter that knows two float literals, a clock stopped at noon,
    and a temporary directory that always has room. *)
Definition demo_runtime : Runtime := {|
  format_4f := fun x => match x with
                        | PyFinite q => if Qeq_bool q 0 then "0.0000" else "12.5000"
                        | PyInfinite false => "inf"
                        | PyInfinite true => "-inf"
                        | PyNaN => "nan"
                        end%string;
  now_strftime := "2025-10-04 12:00:00";
  now_isoformat := "2025-10-04T12:00:00";
  float_of_str := fun s => if String.eqb s "12.5" then Some (PyFinite (25 # 2))
                           else if String.eqb s "nan" then Some PyNaN else None;
  float_of_int := fun z => if Z.abs z <? 2 ^ 1000 then Some (PyFinite (inject_Z z))
                           else None;
  str_exception := fun e => match e with
                            | TypeError => "strptime() argument 1 must be str"
                            | _ => "error"
                            end%string;
  to_csv_tempfile := fun t => Some "/tmp/tmpab12.csv"%string
|}.

(** The JSON object [{"latitude": lat, "longitude": lng, "date": date}]. *)
Definition demo_request (lat lng date : pyval) : gmap string pyval :=
  <["date"%string := date]>
    (<["longitude"%string := lng]> (<["latitude"%string := lat]> ∅)).

Definition demo_world (store : gmap string DataFrame) (n : Z) : @world demo_numpy :=
  @mk_world demo_numpy (mk_processor "sample_data" store false) n.

(* ===================================================================== *)
(** ** The model on small inputs                                         *)
(* ===================================================================== *)

Example strptime_2023_07_19 :
  strptime "2023-07-19" = Return (mk_datetime 2023 7 19)
  /\ tm_yday (mk_datetime 2023 7 19) = 200.
Proof. split; reflexivity. Qed.

Example strptime_rejects :
  strptime "2023-02-30" = Raise ValueError
  /\ strptime "2023-13-01" = Raise ValueError
  /\ strptime "19-07-2023" = Raise ValueError
  /\ strptime "2023-07-19x" = Raise ValueError
  /\ strptime "" = Raise ValueError.
Proof. repeat split; reflexivity. Qed.

Example date_range_lengths :
  Z.of_nat (length (date_range (mk_datetime 2008 1 1) (mk_datetime 2023 12 31))) = 5844
  /\ Z.of_nat (length (date_range (mk_datetime 2010 1 1) (mk_datetime 2024 12 31))) = 5479
  /\ last (date_range (mk_datetime 2008 1 1) (mk_datetime 2023 12 31))
     = Some (mk_datetime 2023 12 31).
Proof. repeat split; vm_compute; reflexivity. Qed.

Example str_int_2015 : str_int 2015 = "2015"%string.
Proof. reflexivity. Qed.

Example path_helpers :
  os_path_join "sample_data" "*.csv" = "sample_data/*.csv"%string
  /\ lower (os_path_basename "sample_data/GLDAS_Noah.TXT") = "gldas_noah.txt"%string
  /\ str_in "gldas" "gldas_noah.txt" = true
  /\ str_in "gpm" "gldas_noah.txt" = false.
Proof. repeat split; reflexivity. Qed.

Example estimate_in_mid_july :
  map_to_list (probabilities_of july_store "2023-07-15")
  = [("wet", Num 50); ("windy", Num (333 # 10)); ("cold", Num (333 # 10));
     ("uncomfortable", Num (667 # 10)); ("hot", Num (333 # 10))]%string.
Proof. vm_compute. reflexivity. Qed.

Example estimate_at_the_turn_of_the_year :
  tm_yday (mk_datetime 2024 12 29) = 364
  /\ same_period 364 [(mk_datetime 2024 12 25, 20%Q); (mk_datetime 2024 12 31, 95%Q);
                      (mk_datetime 2025 1 2, 95%Q); (mk_datetime 2025 1 5, 95%Q)]
     = [(mk_datetime 2024 12 25, 20%Q); (mk_datetime 2024 12 31, 95%Q)]
  /\ dict_get (probabilities_of new_year_store "2024-12-29") "hot" = Num 50.
Proof. repeat split; vm_compute; reflexivity. Qed.

Example legacy_humidity_is_clamped :
  take 4 <$> (historical_data
                (self (snd (@__init__ demo_numpy fs_missing "sample_data" 0)))
              !! "humidity"%string)
  = Some [(mk_datetime 2010 1 1, 10%Q); (mk_datetime 2010 1 2, 30%Q);
          (mk_datetime 2010 1 3, 60%Q); (mk_datetime 2010 1 4, 90%Q)].
Proof. vm_compute. reflexivity. Qed.

Example ingestion_populates_nothing :
  @_load_actual_nasa_data demo_numpy fs_present (demo_world ∅ 0)
  = (Return false, demo_world ∅ 0).
Proof. vm_compute. reflexivity. Qed.

(* ===================================================================== *)
(** ** Rounding and percentages                                          *)
(* ===================================================================== *)

Lemma rint_between (q : Q) (a b : Z) :
  (inject_Z a <= q)%Q -> (q <= inject_Z b)%Q -> a <= rint q <= b.
Proof.
  intros Ha Hb. unfold rint.
  assert (Hfa : a <= Qfloor q).
  { rewrite <- (Qfloor_Z a). apply Qfloor_resp_le, Ha. }
  assert (Hfq : (inject_Z (Qfloor q) <= q)%Q) by apply Qfloor_le.
  assert (Hfb : Qfloor q <= b).
  { rewrite Zle_Qle. eapply Qle_trans; eauto. }
  assert (Hstep : (0 < q - inject_Z (Qfloor q))%Q -> Qfloor q + 1 <= b).
  { intros Hpos.
    assert (Hlt : (inject_Z (Qfloor q) < inject_Z b)%Q).
    { eapply Qlt_le_trans; [|exact Hb].
      apply Qlt_minus_iff. exact Hpos. }
    rewrite <- Zlt_Qlt in Hlt. lia. }
  destruct (Qcompare (q - inject_Z (Qfloor q)) (1 # 2)) eqn:Hc.
  - apply Qeq_alt in Hc.
    destruct (Z.even (Qfloor q)); [lia|].
    split; [lia|]. apply Hstep. rewrite Hc. reflexivity.
  - lia.
  - apply Qgt_alt in Hc. split; [lia|]. apply Hstep.
    eapply Qlt_trans; [|exact Hc]. reflexivity.
Qed.

Lemma round1_between (q : Q) :
  (0 <= q)%Q -> (q <= 100)%Q -> (0 <= round1 q)%Q /\ (round1 q <= 100)%Q.
Proof.
  intros H0 H100.
  destruct (rint_between (q * 10) 0 1000) as [Hlo Hhi].
  - change (inject_Z 0) with (0 * 10)%Q. apply Qmult_le_compat_r; [exact H0|discriminate].
  - change (inject_Z 1000) with (100 * 10)%Q. apply Qmult_le_compat_r; [exact H100|discriminate].
  - unfold round1. rewrite Qred_correct. split.
    + apply Qle_shift_div_l; [reflexivity|]. rewrite Qmult_0_l.
      change 0%Q with (inject_Z 0). rewrite <- Zle_Qle. exact Hlo.
    + apply Qle_shift_div_r; [reflexivity|].
      change (100 * 10)%Q with (inject_Z 1000). rewrite <- Zle_Qle. exact Hhi.
Qed.



Lemma rint_comp (p q : Q) : (p == q)%Q -> rint p = rint q.
Proof.
  intros E. unfold rint. rewrite (Qfloor_comp _ _ E).
  assert (Hc : Qcompare (p - inject_Z (Qfloor q)) (1 # 2)
               = Qcompare (q - inject_Z (Qfloor q)) (1 # 2)).
  { apply Qcompare_comp; [rewrite E|]; reflexivity. }
  rewrite Hc. reflexivity.
Qed.

Lemma round1_comp (p q : Q) : (p == q)%Q -> round1 p = round1 q.
Proof.
  intros E. unfold round1. rewrite (rint_comp (p * 10) (q * 10)); [reflexivity|].
  rewrite E. reflexivity.
Qed.

Lemma count_true_map {A} (f : A -> bool) (l : list A) :
  count_true (map f l) = len (List.filter f l).
Proof.
  unfold count_true, len. f_equal.
  induction l as [|a l IH]; [reflexivity|].
  simpl. destruct (f a); simpl; congruence.
Qed.

Lemma rounded_mean (P : Q -> bool) (l : list Q) :
  fround1 (fmul (mean (map P l)) 100) = exceedance P l.
Proof.
  destruct l as [|a l]; [reflexivity|].
  unfold exceedance, percent_where.
  change (mean (map P (a :: l))) with
    (Num (inject_Z (count_true (map P (a :: l)))
          / inject_Z (Z.of_nat (length (map P (a :: l)))))).
  cbn [fmul fround1]. f_equal. apply round1_comp.
  rewrite count_true_map. unfold len. rewrite length_map. apply Qmult_comm.
Qed.

Lemma len_cons_ltb {A} (a : A) (l : list A) : (0 <? len (a :: l)) = true.
Proof. unfold len. simpl length. apply Z.ltb_lt. lia. Qed.

Lemma lookup_opt_insert_eq k o (p : gmap string fnum) :
  opt_insert k o p !! k = match o with Some v => Some v | None => p !! k end.
Proof. destruct o; simpl; [apply lookup_insert_eq|reflexivity]. Qed.

Lemma lookup_opt_insert_ne k k' o (p : gmap string fnum) :
  k ≠ k' -> opt_insert k o p !! k' = p !! k'.
Proof. intros Hne. destruct o; simpl; [by apply lookup_insert_ne|reflexivity]. Qed.

Lemma stage_gt (store : gmap string DataFrame) (key k : string) (t : Q) (doy : Z)
    (p : gmap string fnum) :
  match store !! key with
  | Some df =>
      if 0 <? len (same_period doy df)
      then <[k := fround1 (fmul (mean (col_gt (same_period doy df) t)) 100)]> p
      else p
  | None => p
  end = opt_insert k (opt_percent (fun v => Qgtb v t) (window_values store key doy)) p.
Proof.
  unfold window_values, col_gt. destruct (store !! key) as [df|]; [|reflexivity].
  destruct (same_period doy df) as [|row rows]; [reflexivity|].
  rewrite len_cons_ltb.
  rewrite <- (map_map snd (fun v => Qgtb v t)), rounded_mean. reflexivity.
Qed.

Lemma stage_temperature (store : gmap string DataFrame) (doy : Z) (p : gmap string fnum) :
  match store !! "temperature"%string with
  | Some df =>
      if 0 <? len (same_period doy df)
      then <["cold"%string := fround1 (fmul (mean (col_lt (same_period doy df) 32)) 100)]>
             (<["hot"%string := fround1 (fmul (mean (col_gt (same_period doy df) 90)) 100)]> p)
      else p
  | None => p
  end = opt_insert "cold" (opt_percent (fun v => Qltb v 32) (window_values store "temperature" doy))
          (opt_insert "hot" (opt_percent (fun v => Qgtb v 90) (window_values store "temperature" doy)) p).
Proof.
  unfold window_values, col_gt, col_lt.
  destruct (store !! "temperature"%string) as [df|]; [|reflexivity].
  destruct (same_period doy df) as [|row rows]; [reflexivity|].
  rewrite len_cons_ltb.
  rewrite <- (map_map snd (fun v => Qgtb v 90)), <- (map_map snd (fun v => Qltb v 32)).
  rewrite !rounded_mean. reflexivity.
Qed.

Lemma stage_comfort (store : gmap string DataFrame) (doy : Z) (p : gmap string fnum) :
  match store !! "temperature"%string, store !! "humidity"%string with
  | Some t, Some h =>
      if (0 <? len (same_period doy t)) && (0 <? len (same_period doy h))
      then <["uncomfortable"%string :=
               fround1 (fmul (mean (map (fun x => Qgtb x 85)
                   (heat_index_column (merge_on_date (same_period doy t) (same_period doy h))))) 100)]> p
      else p
  | _, _ => p
  end = opt_insert "uncomfortable"
          (match window_values store "temperature" doy, window_values store "humidity" doy with
           | _ :: _, _ :: _ => Some (exceedance (fun x => Qgtb x 85) (window_heat_indices store doy))
           | _, _ => None
           end) p.
Proof.
  unfold window_values, window_heat_indices.
  destruct (store !! "temperature"%string) as [t|]; [|reflexivity].
  destruct (store !! "humidity"%string) as [h|]; [|by destruct (map snd (same_period doy t))].
  destruct (same_period doy t) as [|r1 l1]; [reflexivity|].
  destruct (same_period doy h) as [|r2 l2]; [reflexivity|].
  rewrite !len_cons_ltb. cbn [andb map]. rewrite rounded_mean. reflexivity.
Qed.

Lemma ensure_keys_lookup (keys : list string) (p : gmap string fnum) (k : string) :
  ensure_keys keys p !! k =
  match p !! k with
  | Some v => Some v
  | None => if bool_decide (k ∈ keys) then Some zero else None
  end.
Proof.
  revert p. induction keys as [|a keys IH]; intros p.
  - unfold ensure_keys. cbn [fold_left].
    destruct (p !! k); [reflexivity|].
    case_bool_decide as Hin; [by apply elem_of_nil in Hin|reflexivity].
  - unfold ensure_keys in *. cbn [fold_left]. rewrite IH. clear IH.
    destruct (decide (a = k)) as [->|Hne].
    + destruct (p !! k) eqn:Hk; [by rewrite Hk|].
      rewrite lookup_insert_eq. rewrite bool_decide_eq_true_2; [reflexivity|].
      apply list_elem_of_here.
    + assert (Hin : bool_decide (k ∈ a :: keys) = bool_decide (k ∈ keys)).
      { apply bool_decide_ext. rewrite elem_of_cons.
        split; [intros [->|Hk]; [congruence|exact Hk]|intros Hk; right; exact Hk]. }
      rewrite Hin.
      destruct (p !! a) eqn:Ha; [reflexivity|].
      rewrite lookup_insert_ne by exact Hne. reflexivity.
Qed.

Section Estimator.
Context `{Numpy}.

Lemma calculate_probabilities_try_run lat lng d w :
calculate_probabilities_try lat lng d w =
(match strptime d with
 | Return dt => Return (spec_probabilities (historical_data (self w)) (tm_yday dt))
 | Raise e => Raise e
 end, w).
Proof.
unfold calculate_probabilities_try, bind, lift, get_historical_data, ret.
destruct (strptime d) as [dt|e]; [|reflexivity].
cbv zeta. f_equal. f_equal.
set (doy := tm_yday dt). set (store := historical_data (self w)).
rewrite stage_temperature, !stage_gt, stage_comfort.
unfold spec_probabilities.
set (temps := window_values store "temperature" doy).
set (hums := window_values store "humidity" doy).
set (precs := window_values store "precipitation" doy).
set (winds := window_values store "wind" doy).
set (his := window_heat_indices store doy).
apply map_eq. intros k. rewrite ensure_keys_lookup.
destruct (decide (k = "hot"%string)) as [->|Hhot].
{ rewrite !lookup_opt_insert_ne by done. rewrite lookup_opt_insert_eq.
  simplify_map_eq. by destruct temps. }
destruct (decide (k = "cold"%string)) as [->|Hcold].
{ rewrite !lookup_opt_insert_ne by done. rewrite lookup_opt_insert_eq.
  rewrite lookup_opt_insert_ne by done.
  simplify_map_eq. by destruct temps. }
destruct (decide (k = "wet"%string)) as [->|Hwet].
{ rewrite !lookup_opt_insert_ne by done. rewrite lookup_opt_insert_eq.
  rewrite !lookup_opt_insert_ne by done.
  simplify_map_eq. by destruct precs. }
destruct (decide (k = "windy"%string)) as [->|Hwindy].
{ rewrite !lookup_opt_insert_ne by done. rewrite lookup_opt_insert_eq.
  rewrite !lookup_opt_insert_ne by done.
  simplify_map_eq. by destruct winds. }
destruct (decide (k = "uncomfortable"%string)) as [->|Hunc].
{ rewrite lookup_opt_insert_eq.
  rewrite !lookup_opt_insert_ne by done.
  simplify_map_eq. by destruct temps, hums. }
rewrite !lookup_opt_insert_ne by done. rewrite lookup_empty.
rewrite !lookup_insert_ne by done. rewrite lookup_empty.
rewrite bool_decide_eq_false_2; [reflexivity|].
unfold expected_keys. rewrite !elem_of_cons, elem_of_nil. intuition congruence.
Qed.
Lemma calculate_probabilities_run lat lng d w :
calculate_probabilities lat lng d w
= (Return (probabilities_of (historical_data (self w)) d), w).
Proof.
unfold calculate_probabilities, try_except, probabilities_of.
rewrite calculate_probabilities_try_run.
destruct (strptime d); reflexivity.
Qed.

End Estimator.

Lemma datetime_eqb_eq (a b : datetime) : datetime_eqb a b = true <-> a = b.
Proof.
  unfold datetime_eqb. destruct a as [y1 m1 d1], b as [y2 m2 d2]. simpl.
  rewrite !andb_true_iff, !Z.eqb_eq. split.
  - intros [[-> ->] ->]. reflexivity.
  - intros E. injection E as -> -> ->. auto.
Qed.

Lemma same_period_In (day_of_year : Z) (df : DataFrame) (row : datetime * Q) :
  In row (same_period day_of_year df)
  <-> In row df /\ in_window day_of_year (dayofyear (fst row)).
Proof.
  unfold same_period, in_window. rewrite filter_In, andb_true_iff.
  rewrite !Z.leb_le. reflexivity.
Qed.


Lemma merge_on_date_In (left right : DataFrame) (d : datetime) (t h : Q) :
  In (d, t, h) (merge_on_date left right) <-> In (d, t) left /\ In (d, h) right.
Proof.
  unfold merge_on_date. rewrite in_flat_map. split.
  - intros [[d1 t1] [Hl Hin]]. apply in_map_iff in Hin as [[d2 h2] [E Hr]].
    apply filter_In in Hr as [Hr Heq]. simpl in *.
    apply datetime_eqb_eq in Heq. injection E as <- <- <-. subst d2. auto.
  - intros [Hl Hr]. exists (d, t). split; [exact Hl|].
    apply in_map_iff. exists (d, h). split; [reflexivity|].
    apply filter_In. split; [exact Hr|]. simpl. apply datetime_eqb_eq. reflexivity.
Qed.

Lemma heat_index_In (left right : DataFrame) (x : Q) :
  In x (heat_index_column (merge_on_date left right))
  <-> exists d t h, In (d, t) left /\ In (d, h) right /\ x = calculate_heat_index t h.
Proof.
  unfold heat_index_column. rewrite in_map_iff. split.
  - intros [[[d t] h] [E Hin]]. simpl in E. apply merge_on_date_In in Hin as [Hl Hr].
    exists d, t, h. auto.
  - intros (d & t & h & Hl & Hr & ->). exists (d, t, h). split; [reflexivity|].
    apply merge_on_date_In. auto.
Qed.

Lemma percent_where_between (P : Q -> bool) (x : Q) (xs : list Q) :
  (0 <= percent_where P (x :: xs))%Q /\ (percent_where P (x :: xs) <= 100)%Q.
Proof.
  unfold percent_where. apply round1_between.
  - apply Qmult_le_0_compat; [discriminate|].
    apply Qle_shift_div_l.
    + unfold len. simpl length. change 0%Q with (inject_Z 0). rewrite <- Zlt_Qlt. lia.
    + rewrite Qmult_0_l. change 0%Q with (inject_Z 0). rewrite <- Zle_Qle.
      unfold len. lia.
  - rewrite <- (Qmult_1_r 100) at 2. apply Qmult_le_l; [reflexivity|].
    apply Qle_shift_div_r.
    + unfold len. simpl length. change 0%Q with (inject_Z 0). rewrite <- Zlt_Qlt. lia.
    + rewrite Qmult_1_l. rewrite <- Zle_Qle. unfold len.
      apply Nat2Z.inj_le. apply List.filter_length_le.
Qed.

Lemma zero_is_percentage : is_percentage zero.
Proof. exists 0%Q. repeat split; discriminate. Qed.

Lemma percent_or_zero_is_percentage (P : Q -> bool) (xs : list Q) :
  is_percentage (percent_or_zero P xs).
Proof.
  destruct xs as [|x xs]; [apply zero_is_percentage|].
  exists (percent_where P (x :: xs)). split; [reflexivity|].
  apply percent_where_between.
Qed.

Lemma spec_probabilities_lookups (store : gmap string DataFrame) (doy : Z) :
  let probs := spec_probabilities store doy in
  probs !! "hot"%string
    = Some (percent_or_zero (fun t => Qgtb t 90) (window_values store "temperature" doy))
  /\ probs !! "cold"%string
    = Some (percent_or_zero (fun t => Qltb t 32) (window_values store "temperature" doy))
  /\ probs !! "wet"%string
    = Some (percent_or_zero (fun p => Qgtb p (1 # 2)) (window_values store "precipitation" doy))
  /\ probs !! "windy"%string
    = Some (percent_or_zero (fun v => Qgtb v 15) (window_values store "wind" doy))
  /\ probs !! "uncomfortable"%string
    = Some (match window_values store "temperature" doy,
                  window_values store "humidity" doy with
            | _ :: _, _ :: _ =>
                exceedance (fun h => Qgtb h 85) (window_heat_indices store doy)
            | _, _ => zero
            end).
Proof.
  unfold spec_probabilities. cbv zeta.
  repeat split; simplify_map_eq; reflexivity.
Qed.

Lemma spec_probabilities_dom (store : gmap string DataFrame) (doy : Z) :
  dom (spec_probabilities store doy) = five_keys.
Proof.
  unfold spec_probabilities, five_keys. cbv zeta.
  rewrite !dom_insert_L, dom_empty_L. set_solver.
Qed.

Lemma default_probabilities_dom : dom default_probabilities = five_keys.
Proof.
  unfold default_probabilities, five_keys.
  rewrite !dom_insert_L, dom_empty_L. set_solver.
Qed.

Lemma default_probabilities_lookup (k : string) :
  k ∈ five_keys -> default_probabilities !! k = Some zero.
Proof.
  unfold five_keys, default_probabilities. rewrite !elem_of_union, !elem_of_singleton.
  intros [[[[->| ->]| ->]| ->]| ->]; reflexivity.
Qed.




(* ===================================================================== *)
(** ** Properties of the estimator                                       *)
(* ===================================================================== *)

Section EstimatorClaims.
Context `{Numpy}.





(** C9.  Against the same store the estimator is a function of the target
    date alone: two calls return the same result whatever the latitude,
    the longitude and the random state of each call, and a call changes
    neither the processor nor the random state. *)
Theorem estimator_deterministic (lat1 lng1 lat2 lng2 : Q) (d : string) (w1 w2 : world) :
  historical_data (self w1) = historical_data (self w2) ->
  fst (calculate_probabilities lat1 lng1 d w1)
  = fst (calculate_probabilities lat2 lng2 d w2)
  /\ snd (calculate_probabilities lat1 lng1 d w1) = w1
  /\ snd (calculate_probabilities lat2 lng2 d w2) = w2.
Proof.
  intros Hst. rewrite !calculate_probabilities_run. simpl.
  rewrite Hst. auto.
Qed.
End EstimatorClaims.

Lemma tm_yday_leap_shift (y m d : Z) :
  1 <= m <= 12 ->
  tm_yday (mk_datetime y m d) = tm_yday (mk_datetime 2023 m d) + leap_shift y m.
Proof.
  intros Hm. unfold tm_yday, leap_shift, days_before_month. simpl year. simpl month. simpl day.
  change (is_leap 2023) with false. cbv iota.
  assert (Hcases : m = 1 \/ m = 2 \/ m = 3 \/ m = 4 \/ m = 5 \/ m = 6 \/ m = 7
                   \/ m = 8 \/ m = 9 \/ m = 10 \/ m = 11 \/ m = 12) by lia.
  destruct (is_leap y);
    repeat (destruct Hcases as [->|Hcases]; [simpl; lia|]); subst m; simpl; lia.
Qed.

Section DayOfYearClaims.
Context `{Numpy}.

(** C10.  The estimator reads the target date through its day-of-year
    only: two target dates that parse and have the same day-of-year give
    the same result, whatever their years.  For one month and day, the
    day-of-year in two years differs by the leap-year shift of dates after
    February and by nothing else; in particular it is the same in two
    years that are not leap years. *)
Theorem target_date_through_day_of_year :
  (forall (lat lng : Q) (d1 d2 : string) (dt1 dt2 : datetime) (w : world),
      strptime d1 = Return dt1 ->
      strptime d2 = Return dt2 ->
      tm_yday dt1 = tm_yday dt2 ->
      calculate_probabilities lat lng d1 w = calculate_probabilities lat lng d2 w)
  /\ (forall y1 y2 m d : Z,
         1 <= m <= 12 ->
         tm_yday (mk_datetime y1 m d) - tm_yday (mk_datetime y2 m d)
         = leap_shift y1 m - leap_shift y2 m)
  /\ (forall y1 y2 m d : Z,
         1 <= m <= 12 ->
         is_leap y1 = false -> is_leap y2 = false ->
         tm_yday (mk_datetime y1 m d) = tm_yday (mk_datetime y2 m d)).
Proof.
  split; [|split].
  - intros lat lng d1 d2 dt1 dt2 w H1 H2 Hdoy.
    rewrite !calculate_probabilities_run. unfold probabilities_of.
    rewrite H1, H2, Hdoy. reflexivity.
  - intros y1 y2 m d Hm.
    rewrite (tm_yday_leap_shift y1 m d Hm), (tm_yday_leap_shift y2 m d Hm). lia.
  - intros y1 y2 m d Hm L1 L2.
    rewrite (tm_yday_leap_shift y1 m d Hm), (tm_yday_leap_shift y2 m d Hm).
    unfold leap_shift. rewrite L1, L2. reflexivity.
Qed.
End DayOfYearClaims.

(* ===================================================================== *)
(** ** Reasoning about runs of the monad                                 *)
(* ===================================================================== *)

Lemma Qltb_lt (a b : Q) : Qltb a b = true <-> (a < b)%Q.
Proof.
  unfold Qltb. rewrite negb_true_iff. split.
  - intros Hf. apply Qnot_le_lt. intros Hle. apply Qle_bool_iff in Hle. congruence.
  - intros Hlt. destruct (Qle_bool b a) eqn:E; [|reflexivity].
    apply Qle_bool_iff in E. exfalso. exact (Qlt_not_le _ _ Hlt E).
Qed.

Lemma clamp_between (lo hi x : Q) :
  (lo <= hi)%Q -> clamped lo hi (py_max lo (py_min hi x)).
Proof.
  intros Hlh. unfold clamped, py_max, py_min, Qgtb.
  destruct (Qltb x hi) eqn:E1.
  - apply Qltb_lt in E1. destruct (Qltb lo x) eqn:E2.
    + apply Qltb_lt in E2. split; apply Qlt_le_weak; assumption.
    + split; [apply Qle_refl|exact Hlh].
  - destruct (Qltb lo hi) eqn:E2.
    + split; [exact Hlh|apply Qle_refl].
    + split; [apply Qle_refl|exact Hlh].
Qed.

Section Hoare.
Context `{Numpy}.

Lemma returns_ret {A} (a : A) (w : world) (post : A -> world -> Prop) :
  post a w -> returns (ret a) w post.
Proof. intros Hp. exact Hp. Qed.

Lemma returns_bind {A B} (m : M A) (k : A -> M B) (w : world)
    (post : B -> world -> Prop) :
  returns m w (fun a w' => returns (k a) w' post) -> returns (bind m k) w post.
Proof.
  unfold returns, bind. destruct (m w) as [[a|e] w']; [|tauto]. tauto.
Qed.

Lemma returns_weaken {A} (m : M A) (w : world) (P Q : A -> world -> Prop) :
  returns m w P -> (forall a w', P a w' -> Q a w') -> returns m w Q.
Proof.
  unfold returns. destruct (m w) as [[a|e] w']; [|tauto]. intros Hp HPQ. auto.
Qed.

Lemma returns_random (d : distribution) (w : world) (post : Q -> world -> Prop) :
  (forall x w', self w' = self w -> post x w') -> returns (random d) w post.
Proof.
  intros Hpost. unfold returns, random.
  destruct (np_random d (random_state w)) as [x s]. apply Hpost. reflexivity.
Qed.

Lemma returns_mapM {A B} (f : A -> M B) (R : A -> B -> Prop) (xs : list A) (w : world) :
  (forall x w0, returns (f x) w0 (fun b w' => R x b /\ self w' = self w0)) ->
  returns (mapM f xs) w (fun ys w' => Forall2 R xs ys /\ self w' = self w).
Proof.
  intros Hf. revert w. induction xs as [|x xs IH]; intros w.
  - simpl. apply returns_ret. split; [constructor|reflexivity].
  - cbn [mapM]. apply returns_bind.
    eapply returns_weaken; [apply Hf|]. intros b w1 [Hb Hs1].
    apply returns_bind. eapply returns_weaken; [apply IH|].
    intros ys w2 [Hys Hs2]. apply returns_ret.
    split; [constructor; assumption|congruence].
Qed.

Lemma returns_set_historical_data (key : string) (df : DataFrame) (w : world)
    (post : unit -> world -> Prop) :
  (forall w', historical_data (self w') = <[key := df]> (historical_data (self w)) ->
              data_directory (self w') = data_directory (self w) ->
              data_loaded (self w') = data_loaded (self w) ->
              post tt w') ->
  returns (set_historical_data key df) w post.
Proof. intros Hpost. unfold returns, set_historical_data. apply Hpost; reflexivity. Qed.

Lemma try_except_returns {A} (body : M A) (handler : exn -> M A) (w : world)
    (post : A -> world -> Prop) :
  returns body w post -> try_except body handler w = body w.
Proof.
  unfold returns, try_except. destruct (body w) as [[a|e] w']; [reflexivity|tauto].
Qed.
End Hoare.

Ltac row_step :=
  first
    [ apply returns_bind
    | apply returns_random; intros ? ? ?
    | apply returns_ret
    | match goal with |- returns (if ?c then _ else _) _ _ => destruct c end ].

Lemma Forall2_dates {B} (dates : list datetime) (rows : list (datetime * B)) (P : B -> Prop):
    Forall2 (fun d row => fst row = d /\ P (snd row)) dates rows ->
    map fst rows = dates /\ Forall (fun row => P (snd row)) rows.
  Proof.
    induction 1 as [|d row ds rs [Hd Hp] _ [IH1 IH2]]; [split; constructor|].
    split; [simpl; congruence|constructor; assumption].
  Qed.

Ltac stage P rows w1 Hrows :=
  apply returns_bind;
  eapply returns_weaken;
    [ apply (returns_mapM _ (fun d row => fst row = d /\ P (snd row)));
      intros ? ?; repeat row_step; simpl;
      (split; [split; [reflexivity|first [exact I|apply clamp_between; discriminate]]
              |congruence])
    | intros rows w1 [Hrows ?];
      apply (Forall2_dates _ _ P) in Hrows as [Hrows ?];
      first [apply returns_bind, returns_set_historical_data
            |apply returns_set_historical_data] ].

Section GeneratorLemmas.
Context `{Numpy}.

Lemma enhanced_generated (w : world) :
  returns _generate_enhanced_sample_data w
    (fun _ w' => generated enhanced_dates
                           15 95 w w').
Proof.
  unfold _generate_enhanced_sample_data. cbv zeta.
  stage (fun _ : Q => True) temp w1 Ht. intros w2 Hd2 Hdir2 Hl2.
  stage (fun _ : Q => True) precip w3 Hp. intros w4 Hd4 Hdir4 Hl4.
  stage (fun _ : Q => True) wind w5 Hw. intros w6 Hd6 Hdir6 Hl6.
  stage (clamped 15 95) humidity w7 Hh. intros w8 Hd8 Hdir8 Hl8.
  exists temp, precip, wind, humidity.
  repeat match goal with E : self _ = self _ |- _ => rewrite E in * end.
  rewrite Hd8, Hd6, Hd4, Hd2. repeat split; try assumption; congruence.
Qed.

Lemma legacy_generated (w : world) :
  returns _generate_sample_data w
    (fun _ w' => generated legacy_dates
                           10 100 w w').
Proof.
  unfold _generate_sample_data. cbv zeta.
  stage (fun _ : Q => True) temp w1 Ht. intros w2 Hd2 Hdir2 Hl2.
  stage (fun _ : Q => True) precip w3 Hp. intros w4 Hd4 Hdir4 Hl4.
  stage (fun _ : Q => True) wind w5 Hw. intros w6 Hd6 Hdir6 Hl6.
  stage (clamped 10 100) humidity w7 Hh. intros w8 Hd8 Hdir8 Hl8.
  exists temp, precip, wind, humidity.
  repeat match goal with E : self _ = self _ |- _ => rewrite E in * end.
  rewrite Hd8, Hd6, Hd4, Hd2. repeat split; try assumption; congruence.
Qed.
End GeneratorLemmas.

Section LoaderLemmas.
Context `{Numpy} `{FileSystem}.

Lemma process_with_missing (key : string) (e : exn) (w : world) :
  process_with key (raise e) w = (Return tt, w).
Proof.
  unfold process_with, try_except, bind, get_historical_data, raise, ret.
  destruct (historical_data (self w) !! key); reflexivity.
Qed.

Lemma _process_generic_data_run (file_path : string) (w : world) :
  _process_generic_data file_path w = (Return tt, w).
Proof.
  unfold _process_generic_data, try_except, bind, lift, ret.
  destruct (pd_read_csv file_path false); [reflexivity|].
  destruct (pd_read_csv file_path true); reflexivity.
Qed.

Lemma ingestion_loop (files : list string) (w : world) :
  forM files
    (fun file_path (_ : unit) =>
       let filename := lower (os_path_basename file_path) in
       try_except
         (if str_in "gldas" filename then _process_gldas_data file_path
          else if str_in "gpm" filename || str_in "imerg" filename
          then _process_gpm_data file_path
          else if str_in "merra" filename || str_in "m2tmnxlnd" filename
          then _process_merra_data file_path
          else if str_in "cldmsk" filename || str_in "viirs" filename
          then _process_viirs_data file_path
          else _process_generic_data file_path)
         (fun e => ret tt))
    tt w
  = (Return tt, w).
Proof.
  induction files as [|f files IH]; [reflexivity|].
  cbn [forM]. unfold bind at 1. cbv zeta. unfold try_except at 1.
  assert (Hbody :
    (if str_in "gldas" (lower (os_path_basename f)) then _process_gldas_data f
     else if str_in "gpm" (lower (os_path_basename f)) || str_in "imerg" (lower (os_path_basename f))
     then _process_gpm_data f
     else if str_in "merra" (lower (os_path_basename f)) || str_in "m2tmnxlnd" (lower (os_path_basename f))
     then _process_merra_data f
     else if str_in "cldmsk" (lower (os_path_basename f)) || str_in "viirs" (lower (os_path_basename f))
     then _process_viirs_data f
     else _process_generic_data f) w = (Return tt, w)).
  { repeat match goal with |- (if ?c then _ else _) _ = _ => destruct c end;
      first [apply process_with_missing | apply _process_generic_data_run]. }
  rewrite Hbody. exact IH.
Qed.

(** Ingestion changes nothing: every handler fails on the missing
    per-variable generator, or only reads a file. *)
Lemma _load_actual_nasa_data_run (w : world) :
  exists b : bool,
    _load_actual_nasa_data w = (Return b, w)
    /\ (historical_data (self w) = ∅ -> b = false).
Proof.
  unfold _load_actual_nasa_data, try_except.
  destruct (glob_glob _ ++ glob_glob _ ++ glob_glob _) as [|f files] eqn:E.
  - exists false. split; [reflexivity|auto].
  - unfold bind at 1. rewrite ingestion_loop.
    unfold bind, get_historical_data, ret.
    eexists. split; [reflexivity|]. intros ->. reflexivity.
Qed.

Lemma __init__run (data_directory : string) (rs : RandomState) :
  __init__ data_directory rs
  = (if os_path_exists data_directory
     then _generate_enhanced_sample_data
     else _generate_sample_data)
      (mk_world _ (mk_processor data_directory ∅ false) rs).
Proof.
  unfold __init__, load_nasa_data.
  set (w0 := mk_world _ _ _).
  destruct (os_path_exists data_directory) eqn:Hex.
  - erewrite try_except_returns.
    + simpl. rewrite Hex. simpl. unfold bind.
      destruct (_load_actual_nasa_data_run w0) as (b & -> & Hb).
      rewrite Hb by reflexivity. reflexivity.
    + unfold returns. simpl. rewrite Hex. simpl. unfold bind.
      destruct (_load_actual_nasa_data_run w0) as (b & -> & Hb).
      rewrite Hb by reflexivity. simpl. apply enhanced_generated.
  - erewrite try_except_returns.
    + simpl. rewrite Hex. reflexivity.
    + unfold returns. simpl. rewrite Hex. simpl. apply legacy_generated.
Qed.
End LoaderLemmas.

(* ===================================================================== *)
(** ** Properties of the generators and of the loader                    *)
(* ===================================================================== *)

Section GeneratorClaims.
Context `{Numpy}.

(** C8.  Whatever the random draws, the enhanced generator returns with a
    humidity frame that has one row per day of its date range and every
    value in [15, 95]; the legacy generator does with every value in
    [10, 100]. *)
Theorem generated_humidity_clamped (w : world) :
  returns _generate_enhanced_sample_data w
    (fun _ w' =>
       exists humidity : DataFrame,
         historical_data (self w') !! "humidity"%string = Some humidity
         /\ map fst humidity = enhanced_dates
         /\ Forall (fun row => (15 <= snd row)%Q /\ (snd row <= 95)%Q) humidity)
  /\ returns _generate_sample_data w
    (fun _ w' =>
       exists humidity : DataFrame,
         historical_data (self w') !! "humidity"%string = Some humidity
         /\ map fst humidity = legacy_dates
         /\ Forall (fun row => (10 <= snd row)%Q /\ (snd row <= 100)%Q) humidity).
Proof.
  split.
  - eapply returns_weaken; [apply enhanced_generated|].
    intros _ w' (temp & precip & wind & humidity & Hst & _ & _ & _ & _ & _ & Hd & Hc).
    exists humidity. rewrite Hst, lookup_insert_eq. auto.
  - eapply returns_weaken; [apply legacy_generated|].
    intros _ w' (temp & precip & wind & humidity & Hst & _ & _ & _ & _ & _ & Hd & Hc).
    exists humidity. rewrite Hst, lookup_insert_eq. auto.
Qed.
End GeneratorClaims.

Section LoaderClaims.
Context `{Numpy} `{FileSystem}.

(** C7, as the code has it.  When the data directory does not exist the
    loader runs the legacy generator (2010-01-01 to 2024-12-31); when it
    exists and ingestion reports that no variable was populated, the
    loader runs the enhanced generator (2008-01-01 to 2023-12-31).  Either
    generator sets all four variables, whatever the store held.  A freshly
    constructed processor always ends in one of these two cases. *)
Theorem loader_fallback (w : world) :
  (os_path_exists (data_directory (self w)) = false ->
   load_nasa_data w = _generate_sample_data w)
  /\ (os_path_exists (data_directory (self w)) = true ->
      forall w' : world,
        _load_actual_nasa_data w = (Return false, w') ->
        load_nasa_data w = _generate_enhanced_sample_data w')
  /\ (forall w0 : world,
         returns _generate_sample_data w0
           (fun _ w' => generated legacy_dates 10 100 w0 w'))
  /\ (forall w0 : world,
         returns _generate_enhanced_sample_data w0
           (fun _ w' => generated enhanced_dates 15 95 w0 w'))
  /\ (forall (dir : string) (rs : RandomState),
         __init__ dir rs
         = (if os_path_exists dir
            then _generate_enhanced_sample_data
            else _generate_sample_data)
             (mk_world _ (mk_processor dir ∅ false) rs)).
Proof.
  split; [|split; [|split; [|split]]].
  - intros Hex. unfold load_nasa_data.
    erewrite try_except_returns.
    + rewrite Hex. reflexivity.
    + unfold returns. rewrite Hex. simpl. apply legacy_generated.
  - intros Hex w' Hload. unfold load_nasa_data.
    erewrite try_except_returns.
    + rewrite Hex. simpl. unfold bind. rewrite Hload. reflexivity.
    + unfold returns. rewrite Hex. simpl. unfold bind. rewrite Hload. simpl.
      apply enhanced_generated.
  - apply legacy_generated.
  - apply enhanced_generated.
  - apply __init__run.
Qed.
End LoaderClaims.

(* ===================================================================== *)
(** ** The shape of the estimate                                         *)
(* ===================================================================== *)

Section ShapeOfTheEstimate.
Context `{Numpy}.

(** The five keys are always there, and each is a percentage except that
    uncomfortable is computed from the joined rows: it is a percentage
    when there is a joined row, or when a window is empty. *)
Lemma five_keys_always_present (lat lng : Q) (d : string) (w : world) :
  exists probs,
    calculate_probabilities lat lng d w = (Return probs, w)
    /\ dom probs = five_keys
    /\ bound_to_percentage probs "hot"
    /\ bound_to_percentage probs "cold"
    /\ bound_to_percentage probs "wet"
    /\ bound_to_percentage probs "windy"
    /\ (forall dt,
           strptime d = Return dt ->
           window_values (historical_data (self w)) "temperature" (tm_yday dt) = []
           \/ window_heat_indices (historical_data (self w)) (tm_yday dt) <> [] ->
           bound_to_percentage probs "uncomfortable")
    /\ (forall e, strptime d = Raise e -> bound_to_percentage probs "uncomfortable").
Proof.
  eexists. split; [apply calculate_probabilities_run|].
  unfold probabilities_of, bound_to_percentage.
  destruct (strptime d) as [dt|e].
  - pose proof (spec_probabilities_lookups (historical_data (self w)) (tm_yday dt)) as L.
    cbv zeta in L. destruct L as (Lh & Lc & Lw & Lwi & Lu).
    split; [apply spec_probabilities_dom|].
    repeat split;
      try (eexists; split; [eassumption|apply percent_or_zero_is_percentage]).
    + intros dt' E Hne. injection E as <-. eexists. split; [exact Lu|].
      destruct (window_values _ "temperature" _); [apply zero_is_percentage|].
      destruct (window_values _ "humidity" _); [apply zero_is_percentage|].
      destruct Hne as [Hne|Hne]; [discriminate|].
      destruct (window_heat_indices _ _) as [|x xs]; [contradiction|].
      exists (percent_where (fun h => Qgtb h 85) (x :: xs)).
      split; [reflexivity|apply percent_where_between].
    + intros e E. discriminate.
  - split; [apply default_probabilities_dom|].
    assert (Hz : forall k, k ∈ five_keys ->
              exists v, default_probabilities !! k = Some v /\ is_percentage v).
    { intros k Hk. exists zero. split; [by apply default_probabilities_lookup|].
      apply zero_is_percentage. }
    repeat split; try (apply Hz; unfold five_keys; set_solver).
    + intros dt E. discriminate.
    + intros e' _. apply Hz. unfold five_keys. set_solver.
Qed.

(** When temperature and humidity are sampled on the same dates, a
    non-empty temperature window gives a non-empty join. *)
Lemma aligned_join_nonempty (store : gmap string DataFrame) (temp humidity : DataFrame)
    (doy : Z) :
  store !! "temperature"%string = Some temp ->
  store !! "humidity"%string = Some humidity ->
  map fst temp = map fst humidity ->
  window_values store "temperature" doy = []
  \/ window_heat_indices store doy <> [].
Proof.
  intros Ht Hh Hdates. unfold window_values, window_heat_indices. rewrite Ht, Hh.
  destruct (same_period doy temp) as [|[d t] rows] eqn:Hwin; [left; reflexivity|].
  right. intros Hnil.
  assert (Hin : In (d, t) (same_period doy temp)) by (rewrite Hwin; left; reflexivity).
  apply same_period_In in Hin as [Hin Hd].
  assert (Hdh : In d (map fst humidity)).
  { rewrite <- Hdates. apply in_map_iff. exists (d, t). auto. }
  apply in_map_iff in Hdh as [[d' h] [E Hinh]]. simpl in E. subst d'.
  assert (Hx : In (calculate_heat_index t h)
                  (heat_index_column (merge_on_date (same_period doy temp)
                                                    (same_period doy humidity)))).
  { apply heat_index_In. exists d, t, h. repeat split.
    - apply same_period_In. auto.
    - apply same_period_In. auto. }
  rewrite Hwin, Hnil in Hx. contradiction.
Qed.

(** After either generator has run, every estimate binds each of the five
    keys to a percentage. *)
Lemma estimate_on_generated_store (dates : list datetime) (lo hi : Q) (w0 w : world)
    (lat lng : Q) (d : string) :
  generated dates lo hi w0 w ->
  exists probs,
    calculate_probabilities lat lng d w = (Return probs, w)
    /\ dom probs = five_keys
    /\ forall k, k ∈ five_keys -> bound_to_percentage probs k.
Proof.
  intros (temp & precip & wind & humidity & Hst & _ & _ & Ht & _ & _ & Hh & _).
  destruct (five_keys_always_present lat lng d w)
    as (probs & Hrun & Hdom & Hhot & Hcold & Hwet & Hwindy & Hunc & Hfail).
  exists probs. split; [exact Hrun|]. split; [exact Hdom|].
  intros k. unfold five_keys. rewrite !elem_of_union, !elem_of_singleton.
  intros [[[[->| ->]| ->]| ->]| ->]; try assumption.
  destruct (strptime d) as [dt|e] eqn:Hd; [|by apply (Hfail e)].
  apply (Hunc dt eq_refl).
  apply (aligned_join_nonempty _ temp humidity).
  - rewrite Hst. by simplify_map_eq.
  - rewrite Hst. by simplify_map_eq.
  - congruence.
Qed.
End ShapeOfTheEstimate.

(* ===================================================================== *)
(** ** Properties of the trend aggregator                                *)
(* ===================================================================== *)

Section TrendClaims.
Context `{Numpy}.

Lemma trend_loop (lat lng : Q) (w : world) (ys : list Z) (hot wet : list fnum) :
  forM ys
    (fun year '(hot_trend, wet_trend) =>
       probs <-- calculate_probabilities lat lng (sample_date year) ;;
       ret (hot_trend ++ [dict_get probs "hot"],
            wet_trend ++ [dict_get probs "wet"]))
    (hot, wet) w
  = (Return
       (hot ++ map (fun y => dict_get (probabilities_of (historical_data (self w))
                                                         (sample_date y)) "hot") ys,
        wet ++ map (fun y => dict_get (probabilities_of (historical_data (self w))
                                                         (sample_date y)) "wet") ys),
     w).
Proof.
  revert hot wet. induction ys as [|y ys IH]; intros hot wet.
  - simpl. unfold ret. rewrite !app_nil_r. reflexivity.
  - cbn [forM]. unfold bind at 1. unfold bind at 1.
    rewrite calculate_probabilities_run. unfold ret at 1.
    rewrite IH. cbn [map]. rewrite <- !app_assoc. reflexivity.
Qed.


End TrendClaims.

Section EstimateAfterLoading.
Context `{Numpy} `{FileSystem}.

(** X20.  A processor as its constructor leaves it answers every request,
    whatever the date string, with exactly the five keys, each bound to a
    percentage. *)
Lemma estimate_after_init (dir : string) (rs : RandomState) (lat lng : Q) (d : string) :
  let w := snd (__init__ dir rs) in
  exists probs,
    calculate_probabilities lat lng d w = (Return probs, w)
    /\ dom probs = five_keys
    /\ forall k, k ∈ five_keys -> bound_to_percentage probs k.
Proof.
  rewrite __init__run. set (w0 := mk_world _ _ _).
  destruct (os_path_exists dir).
  - pose proof (enhanced_generated w0) as Hgen. unfold returns in Hgen.
    destruct (_generate_enhanced_sample_data w0) as [[[]|e] w']; [|contradiction].
    simpl. eapply estimate_on_generated_store. exact Hgen.
  - pose proof (legacy_generated w0) as Hgen. unfold returns in Hgen.
    destruct (_generate_sample_data w0) as [[[]|e] w']; [|contradiction].
    simpl. eapply estimate_on_generated_store. exact Hgen.
Qed.
End EstimateAfterLoading.


(* ===================================================================== *)
(** ** The properties at concrete inputs                                 *)
(* ===================================================================== *)





Lemma estimator_deterministic_witness :
  fst (calculate_probabilities 0 0 "2023-07-15" (demo_world july_store 0))
  = fst (calculate_probabilities (13 # 1) (-77 # 1) "2023-07-15" (demo_world july_store 42))
  /\ snd (calculate_probabilities 0 0 "2023-07-15" (demo_world july_store 0))
     = demo_world july_store 0
  /\ snd (calculate_probabilities (13 # 1) (-77 # 1) "2023-07-15" (demo_world july_store 42))
     = demo_world july_store 42.
Proof.
  apply (@estimator_deterministic demo_numpy 0 0 (13 # 1) (-77 # 1) "2023-07-15"
           (demo_world july_store 0) (demo_world july_store 42)).
  reflexivity.
Defined.

Lemma target_date_through_day_of_year_witness :
  calculate_probabilities 0 0 "2023-07-15" (demo_world july_store 0)
  = calculate_probabilities 0 0 "1999-07-15" (demo_world july_store 0)
  /\ tm_yday (mk_datetime 2024 7 15) - tm_yday (mk_datetime 2023 7 15) = 1
  /\ tm_yday (mk_datetime 2023 7 15) = tm_yday (mk_datetime 1999 7 15).
Proof.
  destruct (@target_date_through_day_of_year demo_numpy) as (Hsame & Hshift & Hcommon).
  split; [|split].
  - apply (Hsame 0%Q 0%Q "2023-07-15"%string "1999-07-15"%string
             (mk_datetime 2023 7 15) (mk_datetime 1999 7 15)); reflexivity.
  - apply (Hshift 2024 2023 7 15). lia.
  - apply (Hcommon 2023 1999 7 15); [lia|reflexivity|reflexivity].
Defined.


Lemma loader_fallback_witness :
  @load_nasa_data demo_numpy fs_missing (demo_world ∅ 0)
  = @_generate_sample_data demo_numpy (demo_world ∅ 0)
  /\ @load_nasa_data demo_numpy fs_present (demo_world ∅ 0)
     = @_generate_enhanced_sample_data demo_numpy (demo_world ∅ 0).
Proof.
  split.
  - destruct (@loader_fallback demo_numpy fs_missing (demo_world ∅ 0)) as (Hleg & _).
    exact (Hleg eq_refl).
  - destruct (@loader_fallback demo_numpy fs_present (demo_world ∅ 0)) as (_ & Henh & _).
    exact (Henh eq_refl (demo_world ∅ 0) eq_refl).
Defined.

(** C7 as stated, at a missing directory: the loader leaves series that
    start on 2010-01-01, the legacy range; the enhanced generator would have
    left series that start on 2008-01-01. *)
Lemma missing_directory_runs_legacy_generator :
  @os_path_exists fs_missing "sample_data" = false
  /\ first_date "temperature" (@__init__ demo_numpy fs_missing "sample_data" 0)
     = Some (mk_datetime 2010 1 1)
  /\ first_date "temperature"
       (@_generate_enhanced_sample_data demo_numpy (demo_world ∅ 0))
     = Some (mk_datetime 2008 1 1)
  /\ @__init__ demo_numpy fs_missing "sample_data" 0
     <> @_generate_enhanced_sample_data demo_numpy (demo_world ∅ 0).
Proof.
  assert (H1 : first_date "temperature" (@__init__ demo_numpy fs_missing "sample_data" 0)
               = Some (mk_datetime 2010 1 1)) by (vm_compute; reflexivity).
  assert (H2 : first_date "temperature"
                 (@_generate_enhanced_sample_data demo_numpy (demo_world ∅ 0))
               = Some (mk_datetime 2008 1 1)) by (vm_compute; reflexivity).
  split; [reflexivity|]. split; [exact H1|]. split; [exact H2|].
  intros E.
  assert (H3 : Some (mk_datetime 2010 1 1) = Some (mk_datetime 2008 1 1)).
  { etransitivity; [symmetry; exact H1|].
    etransitivity; [exact (f_equal (first_date "temperature") E)|exact H2]. }
  discriminate H3.
Qed.

(* ===================================================================== *)
(** ** Further properties of the processor                               *)
(* ===================================================================== *)

Lemma Qfloor_frac (x : Q) :
  (0 <= x - inject_Z (Qfloor x))%Q /\ (x - inject_Z (Qfloor x) < 1)%Q.
Proof.
  pose proof (Qfloor_le x) as Hlo. pose proof (Qlt_floor x) as Hhi.
  rewrite inject_Z_plus in Hhi. change (inject_Z 1) with 1%Q in Hhi.
  split; lra.
Qed.



(* ---------- percentages of disjoint events ---------- *)



Lemma round1_as_tenths (q : Q) : (round1 q == inject_Z (rint (q * 10)) * (1 # 10))%Q.
Proof. unfold round1. rewrite Qred_correct. reflexivity. Qed.



(* ---------- saturation ---------- *)

Lemma filter_all {A} (P : A -> bool) (xs : list A) :
  Forall (fun x => P x = true) xs -> List.filter P xs = xs.
Proof.
  induction 1 as [|x xs Hx _ IH]; [reflexivity|]. simpl. rewrite Hx, IH. reflexivity.
Qed.

Lemma filter_none {A} (P : A -> bool) (xs : list A) :
  Forall (fun x => P x = false) xs -> List.filter P xs = [].
Proof.
  induction 1 as [|x xs Hx _ IH]; [reflexivity|]. simpl. rewrite Hx, IH. reflexivity.
Qed.

Lemma percent_where_all (P : Q -> bool) (x : Q) (xs : list Q) :
  Forall (fun v => P v = true) (x :: xs) -> percent_where P (x :: xs) = 100%Q.
Proof.
  intros Hall. unfold percent_where. rewrite (filter_all P _ Hall).
  rewrite (round1_comp _ 100); [reflexivity|].
  assert (Hn : ~ (inject_Z (len (x :: xs)) == 0)%Q).
  { unfold len. simpl length. change 0%Q with (inject_Z 0). rewrite inject_Z_injective. lia. }
  field. exact Hn.
Qed.

Lemma percent_where_none (P : Q -> bool) (xs : list Q) :
  Forall (fun v => P v = false) xs -> percent_where P xs = 0%Q.
Proof.
  intros Hnone. unfold percent_where. rewrite (filter_none P _ Hnone).
  rewrite (round1_comp _ 0); [reflexivity|].
  unfold len. simpl. unfold Qdiv. ring.
Qed.

Section LoaderProperties.
Context `{Numpy} `{FileSystem}.

Lemma ingestion_with_files (w : world) :
  candidate_files (data_directory (self w)) <> [] ->
  _load_actual_nasa_data w
  = (Return (0 <? Z.of_nat (size (historical_data (self w)))), w).
Proof.
  unfold _load_actual_nasa_data, candidate_files. intros Hfiles. unfold try_except at 1.
  destruct (glob_glob _ ++ glob_glob _ ++ glob_glob _) as [|f files] eqn:E;
    [contradiction|].
  unfold bind at 1. rewrite ingestion_loop. reflexivity.
Qed.

Lemma __init__data_loaded (dir : string) (rs : RandomState) :
  data_loaded (self (snd (__init__ dir rs))) = false.
Proof.
  rewrite __init__run. set (w0 := mk_world _ _ _).
  destruct (os_path_exists dir).
  - pose proof (enhanced_generated w0) as Hgen. unfold returns in Hgen.
    destruct (_generate_enhanced_sample_data w0) as [[[]|e] w']; [|contradiction].
    destruct Hgen as (t & p & wi & h & _ & _ & Hl & _). exact Hl.
  - pose proof (legacy_generated w0) as Hgen. unfold returns in Hgen.
    destruct (_generate_sample_data w0) as [[[]|e] w']; [|contradiction].
    destruct Hgen as (t & p & wi & h & _ & _ & Hl & _). exact Hl.
Qed.

(** X1.  Ingestion never populates anything: whatever files the data
    directory holds, [_load_actual_nasa_data] leaves the processor and the
    random state as they were.  It answers [False] when there is no
    candidate file, and otherwise whether the store was already non-empty:
    the four format handlers call generators the class does not define and
    swallow the error, the generic handler only reads. *)
Theorem ingestion_is_inert (w : world) :
  _load_actual_nasa_data w
  = (Return (match candidate_files (data_directory (self w)) with
             | [] => false
             | _ :: _ => 0 <? Z.of_nat (size (historical_data (self w)))
             end), w).
Proof.
  unfold _load_actual_nasa_data, candidate_files. unfold try_except at 1.
  destruct (glob_glob _ ++ glob_glob _ ++ glob_glob _) as [|f files] eqn:E.
  - reflexivity.
  - unfold bind at 1. rewrite ingestion_loop. reflexivity.
Qed.

(** X2.  A constructed processor: the constructor returns, keeps the
    directory it was given, leaves [data_loaded] false, and fills the store
    with exactly the four variables, every frame having one row per day of
    the same date range (the enhanced range when the directory exists, the
    legacy range otherwise). *)
Theorem constructed_processor (dir : string) (rs : RandomState) :
  let r := __init__ dir rs in
  let dates := if os_path_exists dir then enhanced_dates else legacy_dates in
  fst r = Return tt
  /\ data_directory (self (snd r)) = dir
  /\ data_loaded (self (snd r)) = false
  /\ dom (historical_data (self (snd r))) = four_variables
  /\ forall key, key ∈ four_variables ->
       exists df, historical_data (self (snd r)) !! key = Some df /\ map fst df = dates.
Proof.
  cbv zeta. rewrite __init__run. set (w0 := mk_world _ _ _).
  assert (Hgen : forall (gen : M unit) dates lo hi,
             returns gen w0 (fun _ w' => generated dates lo hi w0 w') ->
             fst (gen w0) = Return tt
             /\ data_directory (self (snd (gen w0))) = dir
             /\ data_loaded (self (snd (gen w0))) = false
             /\ dom (historical_data (self (snd (gen w0)))) = four_variables
             /\ forall key, key ∈ four_variables ->
                  exists df, historical_data (self (snd (gen w0))) !! key = Some df
                             /\ map fst df = dates).
  { intros gen dates lo hi Hret. unfold returns in Hret.
    destruct (gen w0) as [[[]|e] w']; [|contradiction].
    destruct Hret as (t & p & wi & h & Hst & Hdir & Hl & Ht & Hp & Hw & Hh & _).
    simpl. split; [reflexivity|]. split; [exact Hdir|]. split; [exact Hl|].
    rewrite Hst. simpl. split.
    - rewrite !dom_insert_L, dom_empty_L. unfold four_variables. set_solver.
    - intros key. unfold four_variables. rewrite !elem_of_union, !elem_of_singleton.
      intros [[[->| ->]| ->]| ->]; eexists; (split; [by simplify_map_eq|assumption]). }
  destruct (os_path_exists dir).
  - apply (Hgen _ _ 15%Q 95%Q). apply enhanced_generated.
  - apply (Hgen _ _ 10%Q 100%Q). apply legacy_generated.
Qed.

(** X3.  Calling [load_nasa_data] on a processor whose store is already
    populated, with an existing directory that holds at least one candidate
    file, sets [data_loaded] to true and changes nothing else: no file is
    read into the store and no series is generated. *)
Theorem reload_marks_loaded (w : world) :
  os_path_exists (data_directory (self w)) = true ->
  candidate_files (data_directory (self w)) <> [] ->
  historical_data (self w) <> ∅ ->
  load_nasa_data w = (Return tt, with_data_loaded true w).
Proof.
  intros Hex Hfiles Hst. unfold load_nasa_data, try_except.
  rewrite Hex. simpl. unfold bind. rewrite (ingestion_with_files w Hfiles).
  assert (Hsize : (0 <? Z.of_nat (size (historical_data (self w)))) = true).
  { apply Z.ltb_lt. apply map_size_non_empty_iff in Hst. lia. }
  rewrite Hsize. reflexivity.
Qed.
End LoaderProperties.

Lemma percent_or_zero_not_nan (P : Q -> bool) (xs : list Q) : percent_or_zero P xs <> NaN.
Proof. destruct xs; discriminate. Qed.

Lemma heat_indices_nil_iff (left right : DataFrame) :
  heat_index_column (merge_on_date left right) = []
  <-> forall d t h, ~ (In (d, t) left /\ In (d, h) right).
Proof.
  split.
  - intros Hnil d t h [Hl Hr].
    assert (Hin : In (calculate_heat_index t h) (heat_index_column (merge_on_date left right))).
    { apply heat_index_In. exists d, t, h. auto. }
    rewrite Hnil in Hin. contradiction.
  - intros Hno. destruct (heat_index_column (merge_on_date left right)) as [|x xs] eqn:E;
      [reflexivity|].
    assert (Hin : In x (heat_index_column (merge_on_date left right)))
      by (rewrite E; left; reflexivity).
    apply heat_index_In in Hin as (d & t & h & Hl & Hr & _).
    exfalso. exact (Hno d t h (conj Hl Hr)).
Qed.

Lemma sample_date_parses (y : Z) :
  In y [2015; 2016; 2017; 2018; 2019; 2020; 2021; 2022; 2023; 2024] ->
  strptime (sample_date y) = Return (mk_datetime y 7 15).
Proof.
  intros Hy. repeat (destruct Hy as [<-|Hy]; [reflexivity|]). contradiction.
Qed.

Section EstimateProperties.
Context `{Numpy}.

Lemma get_historical_trends_run (lat lng : Q) (w : world) :
  get_historical_trends lat lng w
  = (Return (mk_trends (range 2015 2025)
               (map (fun y => dict_get (probabilities_of (historical_data (self w))
                                                          (sample_date y)) "hot")
                    (range 2015 2025))
               (map (fun y => dict_get (probabilities_of (historical_data (self w))
                                                          (sample_date y)) "wet")
                    (range 2015 2025))), w).
Proof.
  unfold get_historical_trends, try_except. cbv zeta.
  unfold bind at 1. rewrite trend_loop. reflexivity.
Qed.

(** X4.  The estimator binds a key to NaN in exactly one situation: the
    key is uncomfortable, the target date parses, temperature and humidity
    both have entries in the window, and no date is common to the two
    windows. *)
Theorem not_a_number_exactly_without_common_date (lat lng : Q) (d : string) (w : world) :
  let store := historical_data (self w) in
  exists probs,
    calculate_probabilities lat lng d w = (Return probs, w)
    /\ forall k : string,
         probs !! k = Some NaN
         <-> k = "uncomfortable"%string
             /\ exists dt temp_data humidity_data,
                  strptime d = Return dt
                  /\ store !! "temperature"%string = Some temp_data
                  /\ store !! "humidity"%string = Some humidity_data
                  /\ same_period (tm_yday dt) temp_data <> []
                  /\ same_period (tm_yday dt) humidity_data <> []
                  /\ forall date t h,
                       ~ (In (date, t) (same_period (tm_yday dt) temp_data)
                          /\ In (date, h) (same_period (tm_yday dt) humidity_data)).
Proof.
  cbv zeta. eexists. split; [apply calculate_probabilities_run|].
  set (store := historical_data (self w)).
  intros k. unfold probabilities_of. destruct (strptime d) as [dt|e].
  - pose proof (spec_probabilities_lookups store (tm_yday dt)) as L. cbv zeta in L.
    destruct L as (Lh & Lc & Lw & Lwi & Lu).
    pose proof (spec_probabilities_dom store (tm_yday dt)) as Hdom.
    split.
    + intros Hk.
      assert (Hin : k ∈ five_keys).
      { rewrite <- Hdom. apply elem_of_dom. eauto. }
      unfold five_keys in Hin. rewrite !elem_of_union, !elem_of_singleton in Hin.
      destruct Hin as [[[[->| ->]| ->]| ->]| ->].
      * rewrite Lh in Hk. injection Hk as Hk. by apply percent_or_zero_not_nan in Hk.
      * rewrite Lc in Hk. injection Hk as Hk. by apply percent_or_zero_not_nan in Hk.
      * rewrite Lw in Hk. injection Hk as Hk. by apply percent_or_zero_not_nan in Hk.
      * rewrite Lwi in Hk. injection Hk as Hk. by apply percent_or_zero_not_nan in Hk.
      * split; [reflexivity|]. rewrite Lu in Hk. injection Hk as Hk.
        unfold window_values, window_heat_indices in Hk.
        destruct (store !! "temperature"%string) as [t|]; [|discriminate].
        destruct (store !! "humidity"%string) as [h|];
          [|destruct (map snd (same_period (tm_yday dt) t)); discriminate].
        destruct (same_period (tm_yday dt) t) as [|r1 l1] eqn:E1; [discriminate|].
        destruct (same_period (tm_yday dt) h) as [|r2 l2] eqn:E2; [discriminate|].
        cbn [map] in Hk. rewrite <- E1, <- E2 in Hk.
        exists dt, t, h. rewrite E1, E2. repeat split; try discriminate.
        rewrite <- E1, <- E2. apply heat_indices_nil_iff.
        destruct (heat_index_column _); [reflexivity|discriminate].
    + intros [-> (dt' & t & h & E & Ht & Hh & Hnt & Hnh & Hno)].
      injection E as <-. rewrite Lu. f_equal.
      unfold window_values, window_heat_indices. rewrite Ht, Hh.
      apply heat_indices_nil_iff in Hno.
      destruct (same_period (tm_yday dt) t) as [|r1 l1]; [contradiction|].
      destruct (same_period (tm_yday dt) h) as [|r2 l2]; [contradiction|].
      cbn [map]. rewrite Hno. reflexivity.
  - split.
    + intros Hk. exfalso.
      assert (Hin : k ∈ five_keys).
      { rewrite <- default_probabilities_dom. apply elem_of_dom. eauto. }
      rewrite (default_probabilities_lookup k Hin) in Hk. discriminate.
    + intros [_ (dt & ? & ? & E & _)]. discriminate.
Qed.

(** X8.  The ten yearly values of a trend take at most two values: two
    years that are both leap years, or both not, get the same hot value and
    the same wet value, since the store is pooled over all years and July
    15th has only two possible day-of-year values. *)
Theorem trend_has_two_values (lat lng : Q) (w : world) :
  exists hot wet : list fnum,
    get_historical_trends lat lng w
    = (Return (mk_trends [2015; 2016; 2017; 2018; 2019; 2020; 2021; 2022; 2023; 2024]
                         hot wet), w)
    /\ forall (i j : nat) (y1 y2 : Z),
         [2015; 2016; 2017; 2018; 2019; 2020; 2021; 2022; 2023; 2024] !! i = Some y1 ->
         [2015; 2016; 2017; 2018; 2019; 2020; 2021; 2022; 2023; 2024] !! j = Some y2 ->
         is_leap y1 = is_leap y2 ->
         hot !! i = hot !! j /\ wet !! i = wet !! j.
Proof.
  eexists _, _. split; [apply get_historical_trends_run|].
  change (range 2015 2025)
    with [2015; 2016; 2017; 2018; 2019; 2020; 2021; 2022; 2023; 2024].
  intros i j y1 y2 Hi Hj Hleap.
  rewrite !list_lookup_fmap, Hi, Hj. cbn [fmap option_fmap option_map].
  assert (Hsame : probabilities_of (historical_data (self w)) (sample_date y1)
                  = probabilities_of (historical_data (self w)) (sample_date y2)).
  { unfold probabilities_of.
    rewrite (sample_date_parses y1), (sample_date_parses y2)
      by (apply list_elem_of_In, list_elem_of_lookup; eauto).
    rewrite (tm_yday_leap_shift y1 7 15), (tm_yday_leap_shift y2 7 15) by lia.
    unfold leap_shift. rewrite Hleap. reflexivity. }
  rewrite Hsame. auto.
Qed.


(** X6.  With a non-empty temperature window: when every entry is above
    90, hot is 100.0 and cold is 0.0; when every entry is below 32, cold is
    100.0 and hot is 0.0.  The thresholds are strict: entries of at most 90
    give hot 0.0, entries of at least 32 give cold 0.0. *)
Theorem saturated_temperature (lat lng : Q) (d : string) (dt : datetime) (w : world) :
  strptime d = Return dt ->
  let temps := window_values (historical_data (self w)) "temperature" (tm_yday dt) in
  temps <> [] ->
  exists probs,
    calculate_probabilities lat lng d w = (Return probs, w)
    /\ (Forall (fun t => (90 < t)%Q) temps ->
        probs !! "hot"%string = Some (Num 100) /\ probs !! "cold"%string = Some (Num 0))
    /\ (Forall (fun t => (t <= 90)%Q) temps -> probs !! "hot"%string = Some (Num 0))
    /\ (Forall (fun t => (t < 32)%Q) temps ->
        probs !! "cold"%string = Some (Num 100) /\ probs !! "hot"%string = Some (Num 0))
    /\ (Forall (fun t => (32 <= t)%Q) temps -> probs !! "cold"%string = Some (Num 0)).
Proof.
  intros Hd temps Hne. eexists. split; [apply calculate_probabilities_run|].
  unfold probabilities_of. rewrite Hd.
  pose proof (spec_probabilities_lookups (historical_data (self w)) (tm_yday dt)) as L.
  cbv zeta in L. destruct L as (Lh & Lc & _). rewrite Lh, Lc.
  fold temps. destruct temps as [|x xs]; [contradiction|]. cbn [percent_or_zero].
  assert (Hgt : forall t : Q, (90 < t)%Q -> Qgtb t 90 = true)
    by (intros t Ht; by apply Qltb_lt).
  assert (Hle : forall t : Q, (t <= 90)%Q -> Qgtb t 90 = false).
  { intros t Ht. unfold Qgtb. destruct (Qltb 90 t) eqn:E; [|reflexivity].
    apply Qltb_lt in E. lra. }
  assert (Hlt : forall t : Q, (t < 32)%Q -> Qltb t 32 = true)
    by (intros t Ht; by apply Qltb_lt).
  assert (Hge : forall t : Q, (32 <= t)%Q -> Qltb t 32 = false).
  { intros t Ht. destruct (Qltb t 32) eqn:E; [|reflexivity].
    apply Qltb_lt in E. lra. }
  split; [|split; [|split]].
  - intros Hall. split.
    + rewrite percent_where_all; [reflexivity|].
      eapply Forall_impl; [exact Hall|]. exact Hgt.
    + rewrite percent_where_none; [reflexivity|].
      eapply Forall_impl; [exact Hall|]. intros t Ht. cbv beta in Ht. apply Hge. lra.
  - intros Hall. rewrite percent_where_none; [reflexivity|].
    eapply Forall_impl; [exact Hall|]. exact Hle.
  - intros Hall. split.
    + rewrite percent_where_all; [reflexivity|].
      eapply Forall_impl; [exact Hall|]. exact Hlt.
    + rewrite percent_where_none; [reflexivity|].
      eapply Forall_impl; [exact Hall|]. intros t Ht. cbv beta in Ht. apply Hle. lra.
  - intros Hall. rewrite percent_where_none; [reflexivity|].
    eapply Forall_impl; [exact Hall|]. exact Hge.
Qed.
End EstimateProperties.

Lemma filter_Permutation_bool {A} (f : A -> bool) (l l' : list A) :
  Permutation l l' -> Permutation (List.filter f l) (List.filter f l').
Proof.
  induction 1 as [|x l l' _ IH|x y l|l l' l'' _ IH1 _ IH2]; simpl.
  - constructor.
  - destruct (f x); [constructor|]; exact IH.
  - destruct (f x), (f y); try reflexivity. apply perm_swap.
  - etransitivity; eassumption.
Qed.

Lemma flat_map_Permutation_ext {A B} (f g : A -> list B) (l : list A) :
  (forall a, Permutation (f a) (g a)) -> Permutation (flat_map f l) (flat_map g l).
Proof.
  intros Hfg. induction l as [|a l IH]; [constructor|].
  simpl. apply Permutation_app; [apply Hfg|exact IH].
Qed.

Lemma merge_on_date_Permutation (l l' r r' : DataFrame) :
  Permutation l l' -> Permutation r r' ->
  Permutation (merge_on_date l r) (merge_on_date l' r').
Proof.
  intros Hl Hr. unfold merge_on_date.
  etransitivity; [apply Permutation_flat_map; exact Hl|].
  apply flat_map_Permutation_ext. intros a.
  apply Permutation_map, filter_Permutation_bool, Hr.
Qed.

Lemma percent_where_Permutation (P : Q -> bool) (xs ys : list Q) :
  Permutation xs ys -> percent_where P xs = percent_where P ys.
Proof.
  intros Hp. unfold percent_where, len.
  rewrite (Permutation_length Hp).
  rewrite (Permutation_length (filter_Permutation_bool P _ _ Hp)). reflexivity.
Qed.

Lemma percent_or_zero_Permutation (P : Q -> bool) (xs ys : list Q) :
  Permutation xs ys -> percent_or_zero P xs = percent_or_zero P ys.
Proof.
  intros Hp. destruct xs as [|x xs], ys as [|y ys]; try reflexivity.
  - apply Permutation_nil in Hp. discriminate.
  - symmetry in Hp. apply Permutation_nil in Hp. discriminate.
  - simpl. f_equal. by apply percent_where_Permutation.
Qed.

Lemma exceedance_Permutation (P : Q -> bool) (xs ys : list Q) :
  Permutation xs ys -> exceedance P xs = exceedance P ys.
Proof.
  intros Hp. destruct xs as [|x xs], ys as [|y ys]; try reflexivity.
  - apply Permutation_nil in Hp. discriminate.
  - symmetry in Hp. apply Permutation_nil in Hp. discriminate.
  - simpl. f_equal. by apply percent_where_Permutation.
Qed.

Lemma window_values_Permutation (store store' : gmap string DataFrame) (key : string)
    (doy : Z) :
  same_rows store store' ->
  Permutation (window_values store key doy) (window_values store' key doy).
Proof.
  intros Hs. specialize (Hs key). unfold window_values.
  destruct (store !! key), (store' !! key); try contradiction; [|constructor].
  apply Permutation_map. unfold same_period. by apply filter_Permutation_bool.
Qed.

Lemma window_heat_indices_Permutation (store store' : gmap string DataFrame) (doy : Z) :
  same_rows store store' ->
  Permutation (window_heat_indices store doy) (window_heat_indices store' doy).
Proof.
  intros Hs. pose proof (Hs "temperature"%string) as Ht.
  pose proof (Hs "humidity"%string) as Hh. unfold window_heat_indices.
  destruct (store !! "temperature"%string), (store' !! "temperature"%string);
    try contradiction; [|constructor].
  destruct (store !! "humidity"%string), (store' !! "humidity"%string);
    try contradiction; [|constructor].
  unfold heat_index_column. apply Permutation_map.
  apply merge_on_date_Permutation; unfold same_period; by apply filter_Permutation_bool.
Qed.

Lemma nil_Permutation_match {A B} (xs ys : list A) (a b : B) :
  Permutation xs ys ->
  match xs with [] => a | _ :: _ => b end = match ys with [] => a | _ :: _ => b end.
Proof.
  intros Hp. destruct xs, ys; try reflexivity.
  - apply Permutation_nil in Hp. discriminate.
  - symmetry in Hp. apply Permutation_nil in Hp. discriminate.
Qed.

Section RowOrder.
Context `{Numpy}.

(** X7.  The estimate depends on the rows of each frame, not on their
    order: two stores whose frames are permutations of one another give the
    same result. *)
Theorem row_order_is_irrelevant (lat lng : Q) (d : string) (w w' : world) :
  same_rows (historical_data (self w)) (historical_data (self w')) ->
  fst (calculate_probabilities lat lng d w) = fst (calculate_probabilities lat lng d w').
Proof.
  intros Hs. rewrite !calculate_probabilities_run. simpl. f_equal.
  unfold probabilities_of. destruct (strptime d) as [dt|e]; [|reflexivity].
  unfold spec_probabilities. cbv zeta.
  set (s := historical_data (self w)) in *. set (s' := historical_data (self w')) in *.
  set (doy := tm_yday dt).
  rewrite (percent_or_zero_Permutation _ _ _ (window_values_Permutation s s' "temperature" doy Hs)).
  rewrite (percent_or_zero_Permutation (fun t => Qltb t 32) _ _
             (window_values_Permutation s s' "temperature" doy Hs)).
  rewrite (percent_or_zero_Permutation _ _ _ (window_values_Permutation s s' "precipitation" doy Hs)).
  rewrite (percent_or_zero_Permutation _ _ _ (window_values_Permutation s s' "wind" doy Hs)).
  rewrite (exceedance_Permutation _ _ _ (window_heat_indices_Permutation s s' doy Hs)).
  pose proof (window_values_Permutation s s' "temperature" doy Hs) as Pt.
  pose proof (window_values_Permutation s s' "humidity" doy Hs) as Ph.
  assert (Hu :
    match window_values s "temperature" doy, window_values s "humidity" doy with
    | _ :: _, _ :: _ => exceedance (fun h => Qgtb h 85) (window_heat_indices s' doy)
    | _, _ => zero
    end =
    match window_values s' "temperature" doy, window_values s' "humidity" doy with
    | _ :: _, _ :: _ => exceedance (fun h => Qgtb h 85) (window_heat_indices s' doy)
    | _, _ => zero
    end).
  { destruct (window_values s "temperature" doy), (window_values s' "temperature" doy).
    - reflexivity.
    - apply Permutation_nil in Pt. discriminate.
    - symmetry in Pt. apply Permutation_nil in Pt. discriminate.
    - by apply nil_Permutation_match. }
  rewrite Hu. reflexivity.
Qed.
End RowOrder.

(* ===================================================================== *)
(** ** Properties of the export and of the views                         *)
(* ===================================================================== *)

Section ExportProperties.
Context `{Numpy} `{Runtime}.

Lemma generate_csv_data_returns (lat lng : pyfloat) (date : string) (w : world) :
  exists t : Table, generate_csv_data lat lng date w = (Return t, w).
Proof.
  eexists. unfold generate_csv_data, try_except. unfold bind at 1.
  rewrite calculate_probabilities_run. unfold bind at 1.
  rewrite get_historical_trends_run.
  reflexivity.
Qed.

End ExportProperties.


Lemma strptime_empty : strptime "" = Raise ValueError.
Proof. reflexivity. Qed.

Lemma truthy_dict_with_key (d : gmap string pyval) (k : string) (v : pyval) :
  d !! k = Some v -> truthy (PDict d) = true.
Proof.
  intros Hk. simpl. apply Z.ltb_lt.
  assert (size d <> 0%nat); [|lia].
  apply map_size_non_empty_iff. intros ->. by rewrite lookup_empty in Hk.
Qed.

Lemma py_float_not_None `{Runtime} (v : pyval) (x : pyfloat) :
  py_float v = Ok x -> is_None v = false.
Proof. destruct v; simpl; congruence. Qed.



Lemma not_None_lookup (d : gmap string pyval) (key : string) :
  is_None (get_or_None d key) = false ->
  exists v, d !! key = Some v /\ get_or_None d key = v.
Proof.
  unfold get_or_None. destruct (d !! key) as [v|]; [eauto|discriminate].
Qed.

Section ViewProperties.
Context `{Numpy} `{Runtime}.

Ltac unfold_view :=
  unfold get_weather_probability, get_historical_trends_view, download_data, view,
    app_bind, app_lift, app_try, app_ret, app_call.

(** X10.  A request whose JSON object holds a latitude and a longitude
    that [float] accepts and a date string that parses is answered 200 with
    the estimate of that date, the formatted location, the date string and
    the time stamp; the processor is unchanged. *)
Theorem weather_probability_accepts (d : gmap string pyval) (vlat vlng : pyval)
    (x y : pyfloat) (s : string) (dt : datetime) (w : world) :
  d !! "latitude"%string = Some vlat ->
  d !! "longitude"%string = Some vlng ->
  d !! "date"%string = Some (PStr s) ->
  py_float vlat = Ok x ->
  py_float vlng = Ok y ->
  strptime s = Return dt ->
  get_weather_probability (Ok (PDict d)) w
  = (JsonResponse
       (weather_body x y (PStr s)
          (spec_probabilities (historical_data (self w)) (tm_yday dt))) 200, w).
Proof.
  intros Hlat Hlng Hdate Hx Hy Hdt.
  assert (Hs : String.eqb s "" = false).
  { destruct (String.eqb s "") eqn:E; [|reflexivity].
    apply String.eqb_eq in E. subst s. rewrite strptime_empty in Hdt. discriminate. }
  unfold_view. rewrite (truthy_dict_with_key d _ _ Hlat). cbn [negb].
  cbn [py_get]. rewrite Hlat, Hlng, Hdate.
  rewrite (py_float_not_None _ _ Hx), (py_float_not_None _ _ Hy).
  cbn [truthy orb negb]. rewrite Hs. cbn [negb].
  rewrite Hx, Hy. cbn [py_strptime]. rewrite Hdt.
  rewrite calculate_probabilities_run. unfold probabilities_of. rewrite Hdt.
  reflexivity.
Qed.



(** X13.  What the weather-probability view answers with 500: a body that
    [get_json] could not deliver, a truthy body that is not an object
    ([data.get] does not exist), a truthy date that is not a string
    ([strptime] raises TypeError, which the date check does not catch), and
    an integer latitude too large for a float. *)
Theorem weather_probability_server_errors (w : world) :
  (forall e : py_exception,
      get_weather_probability (Fail e) w = (server_error e, w))
  /\ (forall data : pyval,
         truthy data = true ->
         (forall d, data <> PDict d) ->
         get_weather_probability (Ok data) w = (server_error (Exn AttributeError), w))
  /\ (forall (d : gmap string pyval) (x y : pyfloat),
         py_float (get_or_None d "latitude") = Ok x ->
         py_float (get_or_None d "longitude") = Ok y ->
         truthy (get_or_None d "date") = true ->
         (forall s, get_or_None d "date" <> PStr s) ->
         get_weather_probability (Ok (PDict d)) w = (server_error TypeError, w))
  /\ (forall d : gmap string pyval,
         truthy (PDict d) = true ->
         is_None (get_or_None d "longitude") = false ->
         truthy (get_or_None d "date") = true ->
         py_float (get_or_None d "latitude") = Fail OverflowError ->
         get_weather_probability (Ok (PDict d)) w = (server_error OverflowError, w)).
Proof.
  split; [|split; [|split]].
  - intros e. reflexivity.
  - intros data Ht Hnd. unfold_view. rewrite Ht. cbn [negb].
    destruct data; try reflexivity. exfalso. by eapply Hnd.
  - intros d x y Hx Hy Ht Hns.
    assert (Htd : truthy (PDict d) = true).
    { pose proof (py_float_not_None _ _ Hx) as Hn.
      apply not_None_lookup in Hn as (v & Hv & _). by eapply truthy_dict_with_key. }
    unfold_view. rewrite Htd. cbn [negb py_get].
    fold (get_or_None d "latitude") (get_or_None d "longitude") (get_or_None d "date").
    rewrite (py_float_not_None _ _ Hx), (py_float_not_None _ _ Hy), Ht.
    cbn [orb negb]. rewrite Hx, Hy.
    destruct (get_or_None d "date") eqn:E; try reflexivity.
    exfalso. by eapply Hns.
  - intros d Htd Hlng Ht Hx. unfold_view. rewrite Htd. cbn [negb py_get].
    fold (get_or_None d "latitude") (get_or_None d "longitude") (get_or_None d "date").
    assert (Hlat : is_None (get_or_None d "latitude") = false).
    { destruct (get_or_None d "latitude"); try reflexivity. simpl in Hx. discriminate. }
    rewrite Hlat, Hlng, Ht. cbn [orb negb]. rewrite Hx. reflexivity.
Qed.

(** X14.  The download view validates as the weather-probability view
    does: whenever the latter does not answer 200, the former gives the
    very same response. *)
Theorem download_shares_the_validation (request_get_json : result pyval) (w : world) :
  status_of (fst (get_weather_probability request_get_json w)) <> 200 ->
  download_data request_get_json w = get_weather_probability request_get_json w.
Proof.
  unfold_view. destruct request_get_json as [data|e]; [|reflexivity].
  destruct (truthy data); cbn [negb]; [|reflexivity].
  destruct (py_get data "latitude") as [lat|e]; [|reflexivity].
  destruct (py_get data "longitude") as [lng|e]; [|reflexivity].
  destruct (py_get data "date") as [date|e]; [|reflexivity].
  destruct (is_None lat || is_None lng || negb (truthy date)); [reflexivity|].
  destruct (py_float lat) as [x|e];
    [|destruct (is_ValueError_or_TypeError e); reflexivity].
  destruct (py_float lng) as [y|e];
    [|destruct (is_ValueError_or_TypeError e); reflexivity].
  destruct (py_strptime date) as [s|e];
    [|destruct (is_ValueError e); reflexivity].
  rewrite calculate_probabilities_run. simpl. contradiction.
Qed.

(** X15.  For a valid request the download view writes the export table
    of the same coordinates and date to a temporary file and sends it as
    text/csv under the name weather_probability_<lat>_<lng>_<date>.csv; if
    the file cannot be written it answers 500. *)
Theorem download_data_sends_the_export (d : gmap string pyval) (vlat vlng : pyval)
    (x y : pyfloat) (s : string) (dt : datetime) (w : world) :
  d !! "latitude"%string = Some vlat ->
  d !! "longitude"%string = Some vlng ->
  d !! "date"%string = Some (PStr s) ->
  py_float vlat = Ok x ->
  py_float vlng = Ok y ->
  strptime s = Return dt ->
  exists t : Table,
    generate_csv_data x y s w = (Return t, w)
    /\ download_data (Ok (PDict d)) w
       = (match to_csv_tempfile t with
          | Some path => FileResponse path (download_filename x y s) "text/csv"
          | None => server_error (Exn IOError)
          end, w).
Proof.
  intros Hlat Hlng Hdate Hx Hy Hdt.
  destruct (generate_csv_data_returns x y s w) as (t & Hgen).
  exists t. split; [exact Hgen|].
  assert (Hs : String.eqb s "" = false).
  { destruct (String.eqb s "") eqn:E; [|reflexivity].
    apply String.eqb_eq in E. subst s. rewrite strptime_empty in Hdt. discriminate. }
  unfold_view. rewrite (truthy_dict_with_key d _ _ Hlat). cbn [negb].
  cbn [py_get]. rewrite Hlat, Hlng, Hdate.
  rewrite (py_float_not_None _ _ Hx), (py_float_not_None _ _ Hy).
  cbn [truthy orb negb]. rewrite Hs. cbn [negb].
  rewrite Hx, Hy. cbn [py_strptime]. rewrite Hdt, Hgen.
  destruct (to_csv_tempfile t); reflexivity.
Qed.

(** X16.  A request whose JSON object holds a latitude and a longitude
    that [float] accepts is answered 200 by the trends view with the result
    of [get_historical_trends] for 2015 to 2024, whatever else the object
    holds. *)
Theorem historical_trends_view_accepts (d : gmap string pyval) (vlat vlng : pyval)
    (x y : pyfloat) (w : world) :
  d !! "latitude"%string = Some vlat ->
  d !! "longitude"%string = Some vlng ->
  py_float vlat = Ok x ->
  py_float vlng = Ok y ->
  exists trends : TrendResult,
    get_historical_trends (coordinate x) (coordinate y) w = (Return trends, w)
    /\ years trends = [2015; 2016; 2017; 2018; 2019; 2020; 2021; 2022; 2023; 2024]
    /\ get_historical_trends_view (Ok (PDict d)) w
       = (JsonResponse
            (PDict (<["timestamp"%string := PStr now_isoformat]>
                   (<["location"%string := PStr (format_4f x ++ ", " ++ format_4f y)]>
                   (<["trends"%string := trends_json trends]>
                   (<["success"%string := PBool true]> ∅))))) 200, w).
Proof.
  intros Hlat Hlng Hx Hy. eexists. split; [apply get_historical_trends_run|].
  split; [reflexivity|].
  unfold_view. rewrite (truthy_dict_with_key d _ _ Hlat). cbn [negb].
  cbn [py_get]. rewrite Hlat, Hlng.
  rewrite (py_float_not_None _ _ Hx), (py_float_not_None _ _ Hy).
  cbn [orb]. rewrite Hx, Hy. rewrite get_historical_trends_run. reflexivity.
Qed.
(** X21.  No view changes the processor or draws a random number, whatever
    the request holds and however it is answered: the state after each of
    the four views is the state before it. *)
Theorem views_leave_the_processor_alone (request_get_json : result pyval) (w : world) :
  snd (get_weather_probability request_get_json w) = w
  /\ snd (get_historical_trends_view request_get_json w) = w
  /\ snd (download_data request_get_json w) = w
  /\ snd (health_check w) = w.
Proof.
  split; [|split; [|split; [|reflexivity]]].
  - unfold_view. destruct request_get_json as [data|e]; [|reflexivity].
    destruct (truthy data); cbn [negb]; [|reflexivity].
    destruct (py_get data "latitude") as [lat|e]; [|reflexivity].
    destruct (py_get data "longitude") as [lng|e]; [|reflexivity].
    destruct (py_get data "date") as [date|e]; [|reflexivity].
    destruct (is_None lat || is_None lng || negb (truthy date)); [reflexivity|].
    destruct (py_float lat) as [x|e];
      [|destruct (is_ValueError_or_TypeError e); reflexivity].
    destruct (py_float lng) as [y|e];
      [|destruct (is_ValueError_or_TypeError e); reflexivity].
    destruct (py_strptime date) as [s|e];
      [|destruct (is_ValueError e); reflexivity].
    rewrite calculate_probabilities_run. reflexivity.
  - unfold_view. destruct request_get_json as [data|e]; [|reflexivity].
    destruct (truthy data); cbn [negb]; [|reflexivity].
    destruct (py_get data "latitude") as [lat|e]; [|reflexivity].
    destruct (py_get data "longitude") as [lng|e]; [|reflexivity].
    destruct (is_None lat || is_None lng); [reflexivity|].
    destruct (py_float lat) as [x|e];
      [|destruct (is_ValueError_or_TypeError e); reflexivity].
    destruct (py_float lng) as [y|e];
      [|destruct (is_ValueError_or_TypeError e); reflexivity].
    rewrite get_historical_trends_run. reflexivity.
  - unfold_view. destruct request_get_json as [data|e]; [|reflexivity].
    destruct (truthy data); cbn [negb]; [|reflexivity].
    destruct (py_get data "latitude") as [lat|e]; [|reflexivity].
    destruct (py_get data "longitude") as [lng|e]; [|reflexivity].
    destruct (py_get data "date") as [date|e]; [|reflexivity].
    destruct (is_None lat || is_None lng || negb (truthy date)); [reflexivity|].
    destruct (py_float lat) as [x|e];
      [|destruct (is_ValueError_or_TypeError e); reflexivity].
    destruct (py_float lng) as [y|e];
      [|destruct (is_ValueError_or_TypeError e); reflexivity].
    destruct (py_strptime date) as [s|e];
      [|destruct (is_ValueError e); reflexivity].
    destruct (generate_csv_data_returns x y s w) as (t & ->).
    destruct (to_csv_tempfile t); reflexivity.
Qed.
End ViewProperties.

Section HealthProperties.
Context `{Numpy} `{FileSystem} `{Runtime}.

(** X17.  On a processor as its constructor leaves it, the health view
    always reports [data_loaded] false. *)
Theorem health_after_construction (dir : string) (rs : RandomState) :
  health_check (snd (__init__ dir rs))
  = (JsonResponse
       (PDict (<["data_loaded"%string := PBool false]>
              (<["timestamp"%string := PStr now_isoformat]>
              (<["status"%string := PStr "healthy"]> ∅)))) 200,
     snd (__init__ dir rs)).
Proof.
  unfold health_check. rewrite __init__data_loaded. reflexivity.
Qed.
End HealthProperties.

(* ===================================================================== *)
(** ** Hot days are uncomfortable days                                   *)
(* ===================================================================== *)

Lemma rint_mono (a b : Q) : (a <= b)%Q -> rint a <= rint b.
Proof.
  intros Hab. unfold rint.
  destruct (Qfloor_frac a) as [Ha0 Ha1]. destruct (Qfloor_frac b) as [Hb0 Hb1].
  pose proof (Qfloor_resp_le a b Hab) as Hf.
  set (fa := Qfloor a) in *. set (fb := Qfloor b) in *.
  set (ra := (a - inject_Z fa)%Q) in *. set (rb := (b - inject_Z fb)%Q) in *.
  assert (Hcase : fa + 1 <= fb \/ fa = fb) by lia.
  destruct Hcase as [Hlt|Heq].
  - destruct (Qcompare ra (1 # 2)); destruct (Qcompare rb (1 # 2));
      try destruct (Z.even fa); try destruct (Z.even fb); lia.
  - assert (Hr : (ra <= rb)%Q).
    { unfold ra, rb. rewrite Heq. lra. }
    rewrite <- Heq.
    destruct (Qcompare ra (1 # 2)) eqn:Ca; destruct (Qcompare rb (1 # 2)) eqn:Cb;
      repeat match goal with
             | C : Qcompare _ _ = Eq |- _ => apply Qeq_alt in C
             | C : Qcompare _ _ = Lt |- _ => apply Qlt_alt in C
             | C : Qcompare _ _ = Gt |- _ => apply Qgt_alt in C
             end;
      try (destruct (Z.even fa); lia); try lia; exfalso; lra.
Qed.

Lemma round1_mono (a b : Q) : (a <= b)%Q -> (round1 a <= round1 b)%Q.
Proof.
  intros Hab. rewrite !round1_as_tenths.
  assert (H10 : (a * 10 <= b * 10)%Q) by lra.
  pose proof (rint_mono _ _ H10) as Hr. rewrite Zle_Qle in Hr. lra.
Qed.

Lemma filter_length_le_impl {A} (P P' : A -> bool) (l : list A) :
  Forall (fun x => P x = true -> P' x = true) l ->
  (length (List.filter P l) <= length (List.filter P' l))%nat.
Proof.
  induction 1 as [|x l Hx _ IH]; [reflexivity|].
  simpl. destruct (P x) eqn:E.
  - rewrite (Hx eq_refl). simpl. lia.
  - destruct (P' x); simpl; lia.
Qed.

Lemma percent_where_count_mono (P P' : Q -> bool) (xs ys : list Q) :
  xs <> [] ->
  length xs = length ys ->
  (length (List.filter P xs) <= length (List.filter P' ys))%nat ->
  (percent_where P xs <= percent_where P' ys)%Q.
Proof.
  intros Hne Hlen Hcount. unfold percent_where. apply round1_mono.
  unfold len. rewrite <- Hlen.
  assert (Hn : (0 < inject_Z (Z.of_nat (length xs)))%Q).
  { change 0%Q with (inject_Z 0). rewrite <- Zlt_Qlt.
    destruct xs; [contradiction|simpl; lia]. }
  assert (Hc : (inject_Z (Z.of_nat (length (List.filter P xs)))
                <= inject_Z (Z.of_nat (length (List.filter P' ys))))%Q).
  { rewrite <- Zle_Qle. lia. }
  apply Qmult_le_l; [reflexivity|].
  unfold Qdiv. apply Qmult_le_compat_r; [exact Hc|].
  apply Qlt_le_weak, Qinv_lt_0_compat, Hn.
Qed.

(* ---------- joining two frames on the same dates ---------- *)

Lemma filter_not_in_dates (d : datetime) (r : DataFrame) :
  ~ In d (map fst r) -> List.filter (fun b => datetime_eqb d (fst b)) r = [].
Proof.
  induction r as [|[d' h] r IH]; [reflexivity|].
  simpl. intros Hnin. destruct (datetime_eqb d d') eqn:E.
  - apply datetime_eqb_eq in E. subst d'. exfalso. apply Hnin. left. reflexivity.
  - apply IH. intros Hin. apply Hnin. right. exact Hin.
Qed.

Lemma flat_map_ext_In {A B} (f g : A -> list B) (l : list A) :
  (forall a, In a l -> f a = g a) -> flat_map f l = flat_map g l.
Proof.
  induction l as [|a l IH]; [reflexivity|]. intros Hfg. simpl.
  rewrite (Hfg a) by (left; reflexivity).
  rewrite IH; [reflexivity|]. intros b Hb. apply Hfg. right. exact Hb.
Qed.

Lemma merge_skip_head (l : DataFrame) (d : datetime) (h : Q) (r : DataFrame) :
  ~ In d (map fst l) -> merge_on_date l ((d, h) :: r) = merge_on_date l r.
Proof.
  intros Hnin. unfold merge_on_date. apply flat_map_ext_In. intros a Ha.
  cbn [List.filter fst].
  destruct (datetime_eqb (fst a) d) eqn:E; [|reflexivity].
  apply datetime_eqb_eq in E. exfalso. apply Hnin. rewrite <- E.
  apply in_map. exact Ha.
Qed.

Lemma merge_aligned (l r : DataFrame) :
  map fst l = map fst r ->
  NoDup (map fst l) ->
  merge_on_date l r
  = map (fun p => (fst (fst p), snd (fst p), snd (snd p))) (combine l r).
Proof.
  revert r. induction l as [|[d t] l IH]; intros [|[d' h] r] Hd Hnd;
    [reflexivity|discriminate Hd|discriminate Hd|].
  simpl in Hd. injection Hd as <- Hd. simpl in Hnd.
  apply NoDup_cons in Hnd as [Hnin Hnd]. rewrite list_elem_of_In in Hnin.
  change (merge_on_date ((d, t) :: l) ((d, h) :: r))
    with (map (fun b => (d, t, snd b))
              (List.filter (fun b => datetime_eqb d (fst b)) ((d, h) :: r))
          ++ merge_on_date l ((d, h) :: r)).
  simpl List.filter.
  assert (Edd : datetime_eqb d d = true) by (by apply datetime_eqb_eq).
  rewrite Edd. rewrite filter_not_in_dates by (rewrite <- Hd; exact Hnin).
  rewrite merge_skip_head by exact Hnin.
  rewrite IH by assumption. reflexivity.
Qed.

Lemma same_period_dates (doy : Z) (df : DataFrame) :
  map fst (same_period doy df)
  = List.filter (fun d => (doy - 7 <=? dayofyear d) && (dayofyear d <=? doy + 7))
                (map fst df).
Proof.
  unfold same_period. induction df as [|row df IH]; [reflexivity|].
  simpl. destruct (_ && _); simpl; congruence.
Qed.

Lemma same_period_Forall (doy : Z) (P : datetime * Q -> Prop) (df : DataFrame) :
  Forall P df -> Forall P (same_period doy df).
Proof.
  intros Hall. apply Forall_forall. intros row Hin.
  apply list_elem_of_In, same_period_In in Hin as [Hin _].
  rewrite Forall_forall in Hall. apply Hall. by apply list_elem_of_In.
Qed.


Lemma increasing_above (a : Z) (l : list Z) :
  increasing (a :: l) = true -> Forall (fun x => a < x) l.
Proof.
  revert a. induction l as [|b l IH]; intros a Hinc; [constructor|].
  simpl in Hinc. apply andb_true_iff in Hinc as [Hab Hrest]. apply Z.ltb_lt in Hab.
  constructor; [exact Hab|].
  eapply Forall_impl; [apply IH, Hrest|]. intros x Hx. simpl in Hx. lia.
Qed.

Lemma increasing_NoDup (l : list Z) : increasing l = true -> NoDup l.
Proof.
  induction l as [|a l IH]; intros Hinc; [constructor|].
  apply NoDup_cons. split.
  - intros Hin. pose proof (increasing_above a l Hinc) as Habove.
    rewrite Forall_forall in Habove. specialize (Habove a Hin). lia.
  - apply IH. destruct l as [|b l]; [reflexivity|].
    simpl in Hinc. apply andb_true_iff in Hinc as [_ Hrest]. exact Hrest.
Qed.

Lemma dates_NoDup (dates : list datetime) :
  increasing (map toordinal dates) = true -> NoDup dates.
Proof. intros Hinc. apply (NoDup_fmap_1 toordinal). by apply increasing_NoDup. Qed.

Lemma enhanced_dates_NoDup : NoDup enhanced_dates.
Proof. apply dates_NoDup. vm_compute. reflexivity. Qed.

Lemma legacy_dates_NoDup : NoDup legacy_dates.
Proof. apply dates_NoDup. vm_compute. reflexivity. Qed.

Lemma map_fst_combine {A B} (l : list A) (r : list B) :
  length l = length r -> map fst (combine l r) = l.
Proof.
  revert r. induction l as [|a l IH]; intros [|b r] Hlen; try discriminate; [reflexivity|].
  simpl. f_equal. apply IH. simpl in Hlen. lia.
Qed.

Lemma filter_map_length {A B} (P : B -> bool) (f : A -> B) (l : list A) :
  length (List.filter P (map f l)) = length (List.filter (fun x => P (f x)) l).
Proof.
  induction l as [|a l IH]; [reflexivity|]. simpl. destruct (P (f a)); simpl; lia.
Qed.

Lemma hot_is_uncomfortable (t h : Q) :
  (10 <= h)%Q -> Qgtb t 90 = true -> Qgtb (calculate_heat_index t h) 85 = true.
Proof.
  unfold Qgtb, calculate_heat_index. intros Hh Ht. apply Qltb_lt in Ht. apply Qltb_lt. lra.
Qed.

Section Aligned.
Context `{Numpy}.

Lemma hot_le_uncomfortable_aligned (store : gmap string DataFrame) (d : string)
    (temp_data humidity_data : DataFrame) :
  store !! "temperature"%string = Some temp_data ->
  store !! "humidity"%string = Some humidity_data ->
  map fst temp_data = map fst humidity_data ->
  NoDup (map fst temp_data) ->
  Forall (fun row => (10 <= snd row)%Q) humidity_data ->
  exists hot uncomfortable : Q,
    probabilities_of store d !! "hot"%string = Some (Num hot)
    /\ probabilities_of store d !! "uncomfortable"%string = Some (Num uncomfortable)
    /\ (hot <= uncomfortable)%Q.
Proof.
  intros Ht Hh Hdates Hnd Hhum.
  unfold probabilities_of in *.
  destruct (strptime d) as [dt|e];
    [|exists 0%Q, 0%Q; repeat split; try reflexivity; lra].
  set (doy := tm_yday dt) in *.
  pose proof (spec_probabilities_lookups store doy) as L. cbv zeta in L.
  destruct L as (Lh & _ & _ & _ & Lu).
  unfold window_values, window_heat_indices in Lh, Lu. rewrite Ht in Lh, Lu.
  rewrite Hh in Lu.
  set (tw := same_period doy temp_data) in *.
  set (hw := same_period doy humidity_data) in *.
  assert (Hwd : map fst tw = map fst hw).
  { unfold tw, hw. rewrite !same_period_dates, Hdates. reflexivity. }
  assert (Hwn : NoDup (map fst tw)).
  { unfold tw. rewrite same_period_dates. apply NoDup_ListNoDup, List.NoDup_filter.
    by apply NoDup_ListNoDup. }
  assert (Hlen : length tw = length hw).
  { rewrite <- (length_map fst tw), <- (length_map fst hw), Hwd. reflexivity. }
  rewrite (merge_aligned tw hw Hwd Hwn) in Lu.
  destruct tw as [|r1 tw'] eqn:Etw.
  { destruct hw; [|discriminate Hlen].
    exists 0%Q, 0%Q. split; [exact Lh|]. split; [exact Lu|]. lra. }
  destruct hw as [|r2 hw'] eqn:Ehw; [discriminate Hlen|].
  rewrite <- Etw, <- Ehw in *.
  assert (Htw_ne : tw <> []) by (rewrite Etw; discriminate).
  assert (Hhw_ne : hw <> []) by (rewrite Ehw; discriminate).
  set (zs := combine tw hw) in *.
  set (his := heat_index_column
                (map (fun p : datetime * Q * (datetime * Q) =>
                        (fst (fst p), snd (fst p), snd (snd p))) zs)) in *.
  assert (Ehis : his = map (fun p : datetime * Q * (datetime * Q) =>
                              calculate_heat_index (snd (fst p)) (snd (snd p))) zs).
  { unfold his, heat_index_column. rewrite map_map. reflexivity. }
  assert (Etemps : map snd tw = map (fun p : datetime * Q * (datetime * Q) => snd (fst p)) zs).
  { unfold zs. rewrite <- (map_map fst snd), map_fst_combine by exact Hlen. reflexivity. }
  assert (Hzs_len : length zs = length tw).
  { unfold zs. rewrite length_combine. lia. }
  assert (Hhis_ne : his <> []).
  { rewrite Ehis. intros E. apply (f_equal (@length Q)) in E.
    rewrite length_map, Hzs_len in E. destruct tw; [contradiction|discriminate]. }
  exists (percent_where (fun t => Qgtb t 90) (map snd tw)),
         (percent_where (fun x => Qgtb x 85) his).
  split.
  { rewrite Lh. destruct (map snd tw) eqn:E; [|reflexivity].
    apply (f_equal (@length Q)) in E. rewrite length_map in E.
    destruct tw; [contradiction|discriminate]. }
  split.
  { rewrite Lu.
    destruct (map snd tw) eqn:E1.
    { apply (f_equal (@length Q)) in E1. rewrite length_map in E1.
      destruct tw; [contradiction|discriminate]. }
    destruct (map snd hw) eqn:E2.
    { apply (f_equal (@length Q)) in E2. rewrite length_map in E2.
      destruct hw; [contradiction|discriminate]. }
    destruct his; [contradiction|reflexivity]. }
  apply percent_where_count_mono.
  - intros E. apply (f_equal (@length Q)) in E. rewrite length_map in E.
    destruct tw; [contradiction|discriminate].
  - rewrite Ehis, !length_map. lia.
  - rewrite Etemps, Ehis, !filter_map_length.
    apply filter_length_le_impl. apply Forall_forall. intros [[d1 t] [d2 h]] Hin.
    simpl. apply hot_is_uncomfortable.
    apply list_elem_of_In in Hin. unfold zs in Hin. apply in_combine_r in Hin.
    assert (Hall : Forall (fun row => (10 <= snd row)%Q) hw)
      by (unfold hw; by apply same_period_Forall).
    rewrite Forall_forall in Hall. apply (Hall (d2, h)). by apply list_elem_of_In.
Qed.

Lemma hot_le_uncomfortable_generated (dates : list datetime) (lo hi : Q)
    (w0 w : world) (d : string) :
  generated dates lo hi w0 w -> NoDup dates -> (10 <= lo)%Q ->
  exists hot uncomfortable : Q,
    probabilities_of (historical_data (self w)) d !! "hot"%string = Some (Num hot)
    /\ probabilities_of (historical_data (self w)) d !! "uncomfortable"%string
       = Some (Num uncomfortable)
    /\ (hot <= uncomfortable)%Q.
Proof.
  intros (temp & precip & wind & humidity & Hst & _ & _ & Ht & _ & _ & Hh & Hc) Hnd Hlo.
  apply (hot_le_uncomfortable_aligned _ d temp humidity).
  - rewrite Hst. by simplify_map_eq.
  - rewrite Hst. by simplify_map_eq.
  - congruence.
  - by rewrite Ht.
  - eapply Forall_impl; [exact Hc|]. intros row [Hl _]. simpl in *. lra.
Qed.

(** X18.  Whenever the temperature and humidity frames of the store list the
    same dates in the same order, each date once, and no humidity value is
    below 10, the estimate never puts uncomfortable below hot: a day hotter
    than 90 has a heat index above 85. *)
Theorem uncomfortable_at_least_hot (lat lng : Q) (d : string) (w : world)
    (temp_data humidity_data : DataFrame) :
  historical_data (self w) !! "temperature"%string = Some temp_data ->
  historical_data (self w) !! "humidity"%string = Some humidity_data ->
  map fst temp_data = map fst humidity_data ->
  NoDup (map fst temp_data) ->
  Forall (fun row => (10 <= snd row)%Q) humidity_data ->
  exists (probs : gmap string fnum) (hot uncomfortable : Q),
    calculate_probabilities lat lng d w = (Return probs, w)
    /\ probs !! "hot"%string = Some (Num hot)
    /\ probs !! "uncomfortable"%string = Some (Num uncomfortable)
    /\ (hot <= uncomfortable)%Q.
Proof.
  intros Ht Hh Hdates Hnd Hhum.
  destruct (hot_le_uncomfortable_aligned _ d _ _ Ht Hh Hdates Hnd Hhum)
    as (hot & unc & L1 & L2 & Hle).
  exists (probabilities_of (historical_data (self w)) d), hot, unc.
  split; [apply calculate_probabilities_run|]. auto.
Qed.
End Aligned.

Section AlignedAfterLoading.
Context `{Numpy} `{FileSystem}.

(** X19.  On a freshly constructed processor, whatever the directory holds
    and whatever the random draws, the estimate for any date string binds hot
    and uncomfortable to numbers with hot at most uncomfortable. *)
Theorem uncomfortable_at_least_hot_after_init (dir : string) (rs : RandomState)
    (lat lng : Q) (d : string) :
  let w := snd (__init__ dir rs) in
  exists (probs : gmap string fnum) (hot uncomfortable : Q),
    calculate_probabilities lat lng d w = (Return probs, w)
    /\ probs !! "hot"%string = Some (Num hot)
    /\ probs !! "uncomfortable"%string = Some (Num uncomfortable)
    /\ (hot <= uncomfortable)%Q.
Proof.
  rewrite __init__run. set (w0 := mk_world _ _ _).
  assert (Hgo : forall w, (exists dates lo hi,
                 generated dates lo hi w0 w /\ NoDup dates /\ (10 <= lo)%Q) ->
            exists (probs : gmap string fnum) (hot uncomfortable : Q),
              calculate_probabilities lat lng d w = (Return probs, w)
              /\ probs !! "hot"%string = Some (Num hot)
              /\ probs !! "uncomfortable"%string = Some (Num uncomfortable)
              /\ (hot <= uncomfortable)%Q).
  { intros w (dates & lo & hi & Hgen & Hnd & Hlo).
    destruct (hot_le_uncomfortable_generated dates lo hi w0 w d Hgen Hnd Hlo)
      as (hot & unc & L1 & L2 & Hle).
    exists (probabilities_of (historical_data (self w)) d), hot, unc.
    split; [apply calculate_probabilities_run|]. auto. }
  destruct (os_path_exists dir).
  - pose proof (enhanced_generated w0) as Hgen. unfold returns in Hgen.
    destruct (_generate_enhanced_sample_data w0) as [[[]|e] w']; [|contradiction].
    simpl. apply Hgo. exists enhanced_dates, 15%Q, 95%Q.
    split; [exact Hgen|]. split; [apply enhanced_dates_NoDup|lra].
  - pose proof (legacy_generated w0) as Hgen. unfold returns in Hgen.
    destruct (_generate_sample_data w0) as [[[]|e] w']; [|contradiction].
    simpl. apply Hgo. exists legacy_dates, 10%Q, 100%Q.
    split; [exact Hgen|]. split; [apply legacy_dates_NoDup|lra].
Qed.
End AlignedAfterLoading.

(* ===================================================================== *)
(** ** The further properties at concrete inputs                         *)
(* ===================================================================== *)

Lemma constructed_processor_witness :
  data_loaded (self (snd (@__init__ demo_numpy fs_missing "sample_data" 0))) = false
  /\ dom (historical_data (self (snd (@__init__ demo_numpy fs_missing "sample_data" 0))))
     = four_variables.
Proof.
  destruct (@constructed_processor demo_numpy fs_missing "sample_data"%string 0)
    as (_ & _ & Hl & Hdom & _).
  split; [exact Hl|exact Hdom].
Defined.

Lemma reload_marks_loaded_witness :
  @load_nasa_data demo_numpy fs_present (demo_world july_store 0)
  = (Return tt, with_data_loaded true (demo_world july_store 0)).
Proof.
  apply (@reload_marks_loaded demo_numpy fs_present (demo_world july_store 0)).
  - reflexivity.
  - vm_compute. discriminate.
  - intros E. apply (f_equal (fun m => m !! "wind"%string)) in E.
    vm_compute in E. discriminate.
Defined.

Lemma not_a_number_exactly_without_common_date_witness :
  probabilities_of disjoint_store "2023-07-15" !! "uncomfortable"%string = Some NaN.
Proof.
  destruct (@not_a_number_exactly_without_common_date demo_numpy 0 0 "2023-07-15"
              (demo_world disjoint_store 0)) as (probs & Hrun & Hiff).
  rewrite calculate_probabilities_run in Hrun. injection Hrun as <-.
  apply Hiff. split; [reflexivity|].
  exists (mk_datetime 2023 7 15),
         [(mk_datetime 2020 7 15, 95%Q)], [(mk_datetime 2021 7 15, 60%Q)].
  split; [reflexivity|]. split; [reflexivity|]. split; [reflexivity|].
  split; [discriminate|]. split; [discriminate|].
  intros date t h [H1 H2]. vm_compute in H1, H2.
  destruct H1 as [H1|[]]. destruct H2 as [H2|[]]. congruence.
Defined.

Lemma saturated_temperature_witness :
  exists probs,
    calculate_probabilities 0 0 "2023-07-19" (demo_world hot_store 0)
    = (Return probs, demo_world hot_store 0)
    /\ probs !! "hot"%string = Some (Num 100)
    /\ probs !! "cold"%string = Some (Num 0).
Proof.
  destruct (@saturated_temperature demo_numpy 0 0 "2023-07-19" (mk_datetime 2023 7 19)
              (demo_world hot_store 0) eq_refl)
    as (probs & Hrun & Hall & _).
  - vm_compute. discriminate.
  - exists probs. split; [exact Hrun|]. apply Hall.
    vm_compute. repeat constructor.
Defined.

Lemma row_order_is_irrelevant_witness :
  fst (calculate_probabilities 0 0 "2023-07-15" (demo_world july_store 0))
  = fst (calculate_probabilities 0 0 "2023-07-15" (demo_world july_store_reversed 0)).
Proof.
  apply (@row_order_is_irrelevant demo_numpy 0 0 "2023-07-15"
           (demo_world july_store 0) (demo_world july_store_reversed 0)).
  intros key. simpl.
  destruct (decide (key = "temperature"%string)) as [->|?];
    [vm_compute; apply (Permutation_rev [_; _; _])|].
  destruct (decide (key = "precipitation"%string)) as [->|?];
    [vm_compute; apply (Permutation_rev [_; _])|].
  destruct (decide (key = "wind"%string)) as [->|?];
    [vm_compute; apply (Permutation_rev [_; _; _])|].
  destruct (decide (key = "humidity"%string)) as [->|?];
    [vm_compute; apply (Permutation_rev [_; _; _])|].
  unfold july_store, july_store_reversed.
  rewrite !lookup_insert_ne, !lookup_empty by done. exact I.
Defined.

Lemma trend_has_two_values_witness :
  exists hot wet : list fnum,
    get_historical_trends 0 0 (demo_world july_store 0)
    = (Return (mk_trends [2015; 2016; 2017; 2018; 2019; 2020; 2021; 2022; 2023; 2024]
                         hot wet), demo_world july_store 0)
    /\ hot !! 1%nat = hot !! 5%nat
    /\ wet !! 0%nat = wet !! 8%nat.
Proof.
  destruct (@trend_has_two_values demo_numpy 0 0 (demo_world july_store 0))
    as (hot & wet & Hrun & Hsame).
  exists hot, wet. split; [exact Hrun|]. split.
  - apply (Hsame 1%nat 5%nat 2016 2020); reflexivity.
  - apply (Hsame 0%nat 8%nat 2015 2023); reflexivity.
Defined.

Lemma weather_probability_accepts_witness :
  @get_weather_probability demo_numpy demo_runtime
    (Ok (PDict (demo_request (PStr "12.5") (PInt 0) (PStr "2023-07-15"))))
    (demo_world july_store 0)
  = (JsonResponse
       (@weather_body demo_runtime (PyFinite (25 # 2)) (PyFinite 0) (PStr "2023-07-15")
          (spec_probabilities july_store 196)) 200,
     demo_world july_store 0).
Proof.
  exact (@weather_probability_accepts demo_numpy demo_runtime
           (demo_request (PStr "12.5") (PInt 0) (PStr "2023-07-15"))
           (PStr "12.5") (PInt 0) (PyFinite (25 # 2)) (PyFinite 0) "2023-07-15"
           (mk_datetime 2023 7 15) (demo_world july_store 0)
           eq_refl eq_refl eq_refl eq_refl eq_refl eq_refl).
Defined.



Lemma weather_probability_server_errors_witness :
  @get_weather_probability demo_numpy demo_runtime
    (Ok (PDict (demo_request (PStr "12.5") (PInt 0) (PInt 20230715))))
    (demo_world july_store 0)
  = (@server_error demo_runtime TypeError, demo_world july_store 0)
  /\ @get_weather_probability demo_numpy demo_runtime (Ok (PList [PInt 1]))
       (demo_world july_store 0)
     = (@server_error demo_runtime (Exn AttributeError), demo_world july_store 0).
Proof.
  destruct (@weather_probability_server_errors demo_numpy demo_runtime
              (demo_world july_store 0)) as (_ & Hobj & Hdate & _).
  split.
  - apply (Hdate _ (PyFinite (25 # 2)) (PyFinite 0));
      [reflexivity|reflexivity|reflexivity|discriminate].
  - apply Hobj; [reflexivity|discriminate].
Defined.

Lemma download_shares_the_validation_witness :
  @download_data demo_numpy demo_runtime
    (Ok (PDict (demo_request (PStr "12.5") (PInt 0) (PStr "2023-02-30"))))
    (demo_world july_store 0)
  = @get_weather_probability demo_numpy demo_runtime
      (Ok (PDict (demo_request (PStr "12.5") (PInt 0) (PStr "2023-02-30"))))
      (demo_world july_store 0).
Proof.
  apply (@download_shares_the_validation demo_numpy demo_runtime).
  vm_compute. discriminate.
Defined.

Lemma download_data_sends_the_export_witness :
  exists t : Table,
    @generate_csv_data demo_numpy demo_runtime (PyFinite (25 # 2)) (PyFinite 0)
      "2023-07-15" (demo_world july_store 0)
    = (Return t, demo_world july_store 0)
    /\ @download_data demo_numpy demo_runtime
         (Ok (PDict (demo_request (PStr "12.5") (PInt 0) (PStr "2023-07-15"))))
         (demo_world july_store 0)
       = (FileResponse "/tmp/tmpab12.csv"
            "weather_probability_12.5000_0.0000_2023-07-15.csv" "text/csv",
          demo_world july_store 0).
Proof.
  destruct (@download_data_sends_the_export demo_numpy demo_runtime
              (demo_request (PStr "12.5") (PInt 0) (PStr "2023-07-15"))
              (PStr "12.5") (PInt 0) (PyFinite (25 # 2)) (PyFinite 0) "2023-07-15"
              (mk_datetime 2023 7 15) (demo_world july_store 0)
              eq_refl eq_refl eq_refl eq_refl eq_refl eq_refl)
    as (t & Hgen & Hresp).
  exists t. split; [exact Hgen|exact Hresp].
Defined.

Lemma historical_trends_view_accepts_witness :
  exists trends : TrendResult,
    get_historical_trends 0 (25 # 2) (demo_world july_store 0)
    = (Return trends, demo_world july_store 0)
    /\ status_of (fst (@get_historical_trends_view demo_numpy demo_runtime
                         (Ok (PDict (demo_request (PInt 0) (PStr "12.5") PNone)))
                         (demo_world july_store 0))) = 200.
Proof.
  destruct (@historical_trends_view_accepts demo_numpy demo_runtime
              (demo_request (PInt 0) (PStr "12.5") PNone)
              (PInt 0) (PStr "12.5") (PyFinite 0) (PyFinite (25 # 2))
              (demo_world july_store 0) eq_refl eq_refl eq_refl eq_refl)
    as (trends & Hrun & _ & Hresp).
  exists trends. split; [exact Hrun|]. rewrite Hresp. reflexivity.
Defined.

Lemma uncomfortable_at_least_hot_witness :
  exists (probs : gmap string fnum) (hot uncomfortable : Q),
    @calculate_probabilities demo_numpy 12 77 "2023-07-15" (demo_world july_store 0)
    = (Return probs, demo_world july_store 0)
    /\ probs !! "hot"%string = Some (Num hot)
    /\ probs !! "uncomfortable"%string = Some (Num uncomfortable)
    /\ (hot <= uncomfortable)%Q.
Proof.
  apply (@uncomfortable_at_least_hot demo_numpy 12 77 "2023-07-15"%string
           (demo_world july_store 0)
           [(mk_datetime 2020 7 14, 95%Q); (mk_datetime 2020 7 15, 84%Q);
            (mk_datetime 2021 7 15, 30%Q)]
           [(mk_datetime 2020 7 14, 50%Q); (mk_datetime 2020 7 15, 90%Q);
            (mk_datetime 2021 7 15, 40%Q)]).
  - reflexivity.
  - reflexivity.
  - reflexivity.
  - apply dates_NoDup. reflexivity.
  - repeat constructor; simpl; lra.
Defined.
